(** * Skill Waiting List page: the handlers of [src/pages/WaitingList.tsx]

    The page is a React component.  Its four asynchronous handlers
    ([fetchWaitingSkills], [handleTeachSkill], [handleAddToWaitingList],
    [handleAddSkill]) and the catalog load ([fetchAvailableSkills]) are
    embedded as finite programs over the effects the component performs:
    calls to the backend, state setters of the [useState] hooks, toasts and
    console logging.  A promise that rejects is an exception at the [await];
    [try]/[catch]/[finally] are combinators on programs.

    The backend is outside the component; what it answers to each call is a
    parameter ([Backend]) of the run, and every theorem quantifies over it. *)

From Stdlib Require Import String Ascii List Bool PeanoNat.
Import ListNotations.
Local Open Scope string_scope.
Local Open Scope list_scope.

Set Implicit Arguments.

(* ================================================================= *)
(** ** Data model *)

(** [interface SkillItem { id: string; name: string }] *)
Module SkillItem.
Record t : Type := make { id : string; name : string }.
End SkillItem.

(** [WaitingListEntry], imported from [@/lib/api/waitingList]: the fields
    the page reads. *)
Module WaitingListEntry.
Record t : Type := make
  { id : string; desired_skill : string; created_at : string }.
End WaitingListEntry.

(** The signed-in user of [useAuth()]: [user.id] and the optional
    [user.email]. *)
Module User.
Record t : Type := make { id : string; email : option string }.
End User.

(** The argument of [toast({ title, description, variant })]. *)
Module Toast.
Inductive Variant : Type := destructive | default.
Record t : Type := make
  { title : string; description : string; variant : option Variant }.
End Toast.

(** A value a promise rejects with, or that [throw] raises. *)
Record JsError : Type := mkError { message : string }.

(** The outcome of an awaited promise. *)
Inductive Settled (A : Type) : Type :=
| Fulfilled (a : A)
| Rejected (e : JsError).
Arguments Fulfilled {A} a.
Arguments Rejected {A} e.

(** [{ success: boolean }], what [addToWaitingList] resolves to. *)
Record AddResult : Type := mkAddResult { success : bool }.

(** [{ data, error }], what a supabase query resolves to. *)
Record PostgrestResponse (A : Type) : Type := mkResponse
  { data : option A; error : option JsError }.
Arguments mkResponse {A} data error.

(** React's [SetStateAction<S> = S | ((prev: S) => S)]. *)
Inductive SetStateAction (S : Type) : Type :=
| Value (s : S)
| Updater (f : S -> S).
Arguments Value {S} s.
Arguments Updater {S} f.

Definition apply_action {S : Type} (a : SetStateAction S) (prev : S) : S :=
  match a with
  | Value s => s
  | Updater f => f prev
  end.

(** The component's [useState] cells. *)
Record State : Type := mkState
  { waitingSkills : list WaitingListEntry.t;
    isLoading : bool;
    availableSkills : list SkillItem.t;
    newSkill : string;
    skillName : string;
    category : string;
    description : string;
    notify : bool }.

(** The initial values given to [useState]. *)
Definition initialState : State :=
  {| waitingSkills := [];
     isLoading := false;
     availableSkills := [];
     newSkill := "";
     skillName := "";
     category := "";
     description := "";
     notify := true |}.

(* ================================================================= *)
(** ** JavaScript string operations *)

(** [String.prototype.toLowerCase] and [String.prototype.trim] are built-ins
    of the language; the handlers are defined over any implementation of
    them. *)
Class StringPrototype : Type :=
  { toLowerCase : string -> string;
    trim : string -> string }.

(** A string is falsy exactly when it is empty. *)
Definition truthy (s : string) : bool := negb (String.eqb s "").

(** [a || b] on an optional string: [undefined] and [''] are falsy. *)
Definition or_else (a : option string) (b : string) : string :=
  match a with
  | Some s => if truthy s then s else b
  | None => b
  end.

(** The built-ins on ASCII text, for evaluating the handlers on concrete
    inputs. *)
Definition ascii_lower (c : ascii) : ascii :=
  let n := nat_of_ascii c in
  if ((65 <=? n) && (n <=? 90))%nat then ascii_of_nat (n + 32) else c.

Fixpoint ascii_toLowerCase (s : string) : string :=
  match s with
  | EmptyString => EmptyString
  | String c s' => String (ascii_lower c) (ascii_toLowerCase s')
  end.

Definition ascii_space (c : ascii) : bool :=
  let n := nat_of_ascii c in
  (((9 <=? n) && (n <=? 13)) || (n =? 32))%nat.

Fixpoint trim_start (s : string) : string :=
  match s with
  | EmptyString => EmptyString
  | String c s' => if ascii_space c then trim_start s' else s
  end.

Fixpoint trim_end (s : string) : string :=
  match s with
  | EmptyString => EmptyString
  | String c s' =>
      match trim_end s' with
      | EmptyString => if ascii_space c then EmptyString else String c EmptyString
      | t => String c t
      end
  end.

Definition ascii_trim (s : string) : string := trim_end (trim_start s).

#[global] Instance ascii_strings : StringPrototype :=
  {| toLowerCase := ascii_toLowerCase; trim := ascii_trim |}.

(* ================================================================= *)
(** ** Effects and programs *)

(** What a handler does to the world.  The index is the type of the answer
    the handler gets back. *)
Inductive Eff : Type -> Type :=
(* the Waiting List client API *)
| fetchWaitingListEntries : Eff (Settled (list WaitingListEntry.t))
| addToWaitingList (email skill : string) (cat : option string)
    (userId : string) : Eff (Settled AddResult)
| removeFromWaitingList (entryId : string) : Eff (Settled unit)
(* supabase.from('skills').select('id, name') *)
| select_skills : Eff (Settled (PostgrestResponse (list SkillItem.t)))
(* supabase.from('user_skills').insert({ user_id, skill_id, type }) *)
| insert_user_skills (user_id skill_id type : string)
    : Eff (Settled (PostgrestResponse unit))
(* state setters *)
| setWaitingSkills (a : SetStateAction (list WaitingListEntry.t)) : Eff unit
| setIsLoading (a : SetStateAction bool) : Eff unit
| setAvailableSkills (a : SetStateAction (list SkillItem.t)) : Eff unit
| setNewSkill (a : SetStateAction string) : Eff unit
| setSkillName (a : SetStateAction string) : Eff unit
| setCategory (a : SetStateAction string) : Eff unit
| setDescription (a : SetStateAction string) : Eff unit
| setNotify (a : SetStateAction bool) : Eff unit
(* notification, logging, the form event *)
| toast (t : Toast.t) : Eff unit
| console_error (label : string) (e : JsError) : Eff unit
| preventDefault : Eff unit.

(** A call that leaves the browser. *)
Definition is_remote {R : Type} (ev : Eff R) : bool :=
  match ev with
  | fetchWaitingListEntries
  | addToWaitingList _ _ _ _
  | removeFromWaitingList _
  | select_skills
  | insert_user_skills _ _ _ => true
  | _ => false
  end.

(** The body of an [async] function: it returns, throws, or performs an
    effect and goes on with the answer. *)
Inductive Prog (A : Type) : Type :=
| Ret (a : A)
| Throw (e : JsError)
| Vis (R : Type) (ev : Eff R) (k : R -> Prog A).
Arguments Ret {A} a.
Arguments Throw {A} e.
Arguments Vis {A R} ev k.

Fixpoint bind {A B : Type} (p : Prog A) (f : A -> Prog B) : Prog B :=
  match p with
  | Ret a => f a
  | Throw e => Throw e
  | Vis ev k => Vis ev (fun r => bind (k r) f)
  end.

Notation "x <- p ;; q" := (bind p (fun x => q))
  (at level 61, p at next level, right associativity).
Notation "p ;; q" := (bind p (fun _ => q))
  (at level 61, right associativity).

(** A statement with no result that matters. *)
Definition perform (ev : Eff unit) : Prog unit := Vis ev (fun _ => Ret tt).

(** [await] of a promise: its value, or its rejection thrown. *)
Definition await {A : Type} (ev : Eff (Settled A)) : Prog A :=
  Vis ev (fun r =>
    match r with
    | Fulfilled a => Ret a
    | Rejected e => Throw e
    end).

(** [try { body } catch (error) { handler }] *)
Fixpoint try_catch {A : Type} (body : Prog A) (handler : JsError -> Prog A)
  : Prog A :=
  match body with
  | Ret a => Ret a
  | Throw e => handler e
  | Vis ev k => Vis ev (fun r => try_catch (k r) handler)
  end.

(** [try { body } finally { cleanup }]: the cleanup runs on both exits and
    the exit of the body is kept. *)
Fixpoint try_finally {A : Type} (body : Prog A) (cleanup : Prog unit)
  : Prog A :=
  match body with
  | Ret a => cleanup ;; Ret a
  | Throw e => cleanup ;; Throw e
  | Vis ev k => Vis ev (fun r => try_finally (k r) cleanup)
  end.

Definition try_catch_finally {A : Type} (body : Prog A)
  (handler : JsError -> Prog A) (cleanup : Prog unit) : Prog A :=
  try_finally (try_catch body handler) cleanup.

(* ================================================================= *)
(** ** The handlers of the component *)

Section Handlers.
Context `{StringPrototype}.

(** The callback of [prev.filter((ws) => ws.id !== waitingSkill.id)]. *)
Definition other_than (waitingSkill ws : WaitingListEntry.t) : bool :=
  negb (String.eqb (WaitingListEntry.id ws) (WaitingListEntry.id waitingSkill)).

(** The callback of [availableSkills.find(...)]: equal names once both are
    lower-cased. *)
Definition same_name (waitingSkill : WaitingListEntry.t)
  (skill : SkillItem.t) : bool :=
  String.eqb (toLowerCase (SkillItem.name skill))
             (toLowerCase (WaitingListEntry.desired_skill waitingSkill)).

Definition load_failed : Toast.t :=
  {| Toast.title := "Error";
     Toast.description := "Failed to load waiting skills";
     Toast.variant := Some Toast.destructive |}.

Definition offered (waitingSkill : WaitingListEntry.t) : Toast.t :=
  {| Toast.title := "Success";
     Toast.description :=
       "You've offered to teach " ++ WaitingListEntry.desired_skill waitingSkill;
     Toast.variant := Some Toast.default |}.

Definition offer_failed : Toast.t :=
  {| Toast.title := "Error";
     Toast.description := "Could not offer this skill. Please try again.";
     Toast.variant := Some Toast.destructive |}.

Definition added : Toast.t :=
  {| Toast.title := "Success";
     Toast.description := "Skill added to waiting list";
     Toast.variant := None |}.

Definition add_failed : Toast.t :=
  {| Toast.title := "Error";
     Toast.description := "Failed to add skill to waiting list";
     Toast.variant := Some Toast.destructive |}.

Definition sign_in_first : Toast.t :=
  {| Toast.title := "Error";
     Toast.description := "Please sign in to add a skill to the waiting list";
     Toast.variant := Some Toast.destructive |}.

Definition fields_required : Toast.t :=
  {| Toast.title := "Error";
     Toast.description := "Please fill in all required fields";
     Toast.variant := Some Toast.destructive |}.

(** [const fetchWaitingSkills = async () => { try {...} catch {...}
    finally {...} }] *)
Definition fetchWaitingSkills : Prog unit :=
  try_catch_finally
    (perform (setIsLoading (Value true)) ;;
     data <- await fetchWaitingListEntries ;;
     perform (setWaitingSkills (Value data)))
    (fun error =>
       perform (console_error "Error fetching waiting skills:" error) ;;
       perform (toast load_failed))
    (perform (setIsLoading (Value false))).

(** [fetchAvailableSkills]: [if (error) throw error;
    setAvailableSkills(data || [])]. *)
Definition fetchAvailableSkills : Prog unit :=
  try_catch
    (resp <- await select_skills ;;
     match error resp with
     | Some e => Throw e
     | None =>
         perform (setAvailableSkills
                    (Value (match data resp with Some d => d | None => [] end)))
     end)
    (fun error =>
       perform (console_error "Error fetching available skills:" error)).

(** [handleTeachSkill(waitingSkill)].  [user] comes from [useAuth()];
    [rendered] is the state of the render whose closure the handler is:
    [availableSkills] is read from it. *)
Definition handleTeachSkill (user : option User.t) (rendered : State)
  (waitingSkill : WaitingListEntry.t) : Prog unit :=
  match user with
  | None => Ret tt
  | Some user =>
      perform (setIsLoading (Value true)) ;;
      try_catch_finally
        (let skillItem :=
           find (same_name waitingSkill) (availableSkills rendered) in
         match skillItem with
         | Some skillItem =>
             resp <- await (insert_user_skills (User.id user)
                              (SkillItem.id skillItem) "teach") ;;
             match error resp with
             | Some insertError => Throw insertError
             | None => Ret tt
             end
         | None => Ret tt
         end ;;
         await (removeFromWaitingList (WaitingListEntry.id waitingSkill)) ;;
         perform (setWaitingSkills
                    (Updater (fun prev => filter (other_than waitingSkill) prev))) ;;
         perform (toast (offered waitingSkill)))
        (fun error =>
           perform (console_error "Error offering skill:" error) ;;
           perform (toast offer_failed))
        (perform (setIsLoading (Value false)))
  end.

(** [handleAddToWaitingList()], the quick-add on [newSkill]. *)
Definition handleAddToWaitingList (user : option User.t) (rendered : State)
  : Prog unit :=
  match user with
  | None => Ret tt
  | Some user =>
      if negb (truthy (trim (newSkill rendered))) then Ret tt
      else
        perform (setIsLoading (Value true)) ;;
        try_catch_finally
          (result <- await (addToWaitingList
                              (or_else (User.email user) "")
                              (trim (newSkill rendered)) None (User.id user)) ;;
           if success result then
             fetchWaitingSkills ;;
             perform (setNewSkill (Value "")) ;;
             perform (toast added)
           else Ret tt)
          (fun error =>
             perform (console_error "Error adding to waiting list:" error) ;;
             perform (toast add_failed))
          (perform (setIsLoading (Value false)))
  end.

(** [handleAddSkill(e)], the submit handler of the full form. *)
Definition handleAddSkill (user : option User.t) (rendered : State)
  : Prog unit :=
  perform preventDefault ;;
  match user with
  | None => perform (toast sign_in_first)
  | Some user =>
      if negb (truthy (trim (skillName rendered)))
         || negb (truthy (category rendered))
      then perform (toast fields_required)
      else
        perform (setIsLoading (Value true)) ;;
        try_catch_finally
          (result <- await (addToWaitingList
                              (or_else (User.email user) "")
                              (trim (skillName rendered))
                              (Some (category rendered)) (User.id user)) ;;
           if success result then
             fetchWaitingSkills ;;
             perform (setSkillName (Value "")) ;;
             perform (setCategory (Value "")) ;;
             perform (setDescription (Value "")) ;;
             perform (toast added)
           else Ret tt)
          (fun error =>
             perform (console_error "Error adding to waiting list:" error) ;;
             perform (toast add_failed))
          (perform (setIsLoading (Value false)))
  end.

End Handlers.

(* ================================================================= *)
(** ** Running a handler against a backend *)

(** What the backend answers to each call. *)
Record Backend : Type := mkBackend
  { fetched : Settled (list WaitingListEntry.t);
    add_answer : string -> string -> option string -> string -> Settled AddResult;
    removed : string -> Settled unit;
    selected : Settled (PostgrestResponse (list SkillItem.t));
    inserted : string -> string -> string -> Settled (PostgrestResponse unit) }.

(** The answer to an effect: the backend's for a call, nothing for a
    setter, a toast or a log line. *)
Definition respond (be : Backend) {R : Type} (ev : Eff R) : R :=
  match ev in Eff R return R with
  | fetchWaitingListEntries => fetched be
  | addToWaitingList email skill cat userId => add_answer be email skill cat userId
  | removeFromWaitingList entryId => removed be entryId
  | select_skills => selected be
  | insert_user_skills user_id skill_id type => inserted be user_id skill_id type
  | _ => tt
  end.

(** What an effect does to the component's state. *)
Definition apply_eff {R : Type} (ev : Eff R) (st : State) : State :=
  match ev with
  | setWaitingSkills a =>
      {| waitingSkills := apply_action a (waitingSkills st);
         isLoading := isLoading st; availableSkills := availableSkills st;
         newSkill := newSkill st; skillName := skillName st;
         category := category st; description := description st;
         notify := notify st |}
  | setIsLoading a =>
      {| waitingSkills := waitingSkills st;
         isLoading := apply_action a (isLoading st);
         availableSkills := availableSkills st;
         newSkill := newSkill st; skillName := skillName st;
         category := category st; description := description st;
         notify := notify st |}
  | setAvailableSkills a =>
      {| waitingSkills := waitingSkills st; isLoading := isLoading st;
         availableSkills := apply_action a (availableSkills st);
         newSkill := newSkill st; skillName := skillName st;
         category := category st; description := description st;
         notify := notify st |}
  | setNewSkill a =>
      {| waitingSkills := waitingSkills st; isLoading := isLoading st;
         availableSkills := availableSkills st;
         newSkill := apply_action a (newSkill st); skillName := skillName st;
         category := category st; description := description st;
         notify := notify st |}
  | setSkillName a =>
      {| waitingSkills := waitingSkills st; isLoading := isLoading st;
         availableSkills := availableSkills st;
         newSkill := newSkill st; skillName := apply_action a (skillName st);
         category := category st; description := description st;
         notify := notify st |}
  | setCategory a =>
      {| waitingSkills := waitingSkills st; isLoading := isLoading st;
         availableSkills := availableSkills st;
         newSkill := newSkill st; skillName := skillName st;
         category := apply_action a (category st);
         description := description st; notify := notify st |}
  | setDescription a =>
      {| waitingSkills := waitingSkills st; isLoading := isLoading st;
         availableSkills := availableSkills st;
         newSkill := newSkill st; skillName := skillName st;
         category := category st;
         description := apply_action a (description st);
         notify := notify st |}
  | setNotify a =>
      {| waitingSkills := waitingSkills st; isLoading := isLoading st;
         availableSkills := availableSkills st;
         newSkill := newSkill st; skillName := skillName st;
         category := category st; description := description st;
         notify := apply_action a (notify st) |}
  | _ => st
  end.

(** One effect as it was observed: the state it was performed in, the
    effect, and the answer. *)
Inductive Obs : Type :=
| Observed (before : State) (R : Type) (ev : Eff R) (answer : R).
Arguments Observed before {R} ev answer.

(** How a run ends: by returning, or with an exception nobody caught. *)
Inductive Completion (A : Type) : Type :=
| Returned (a : A)
| Uncaught (e : JsError).
Arguments Returned {A} a.
Arguments Uncaught {A} e.

Record Outcome (A : Type) : Type := mkOutcome
  { final : State; trace : list Obs; completion : Completion A }.
Arguments mkOutcome {A} final trace completion.

Fixpoint run {A : Type} (be : Backend) (p : Prog A) (st : State) : Outcome A :=
  match p with
  | Ret a => mkOutcome st [] (Returned a)
  | Throw e => mkOutcome st [] (Uncaught e)
  | Vis ev k =>
      let answer := respond be ev in
      let rest := run be (k answer) (apply_eff ev st) in
      mkOutcome (final rest) (Observed st ev answer :: trace rest) (completion rest)
  end.

(** *** Reading a trace *)

(** The backend calls of a trace, in order, without their answers. *)
Inductive Call : Type :=
| call_fetch
| call_add (email skill : string) (cat : option string) (userId : string)
| call_remove (entryId : string)
| call_select
| call_insert (user_id skill_id type : string).

Definition call_of {R : Type} (ev : Eff R) : option Call :=
  match ev with
  | fetchWaitingListEntries => Some call_fetch
  | addToWaitingList email skill cat userId => Some (call_add email skill cat userId)
  | removeFromWaitingList entryId => Some (call_remove entryId)
  | select_skills => Some call_select
  | insert_user_skills user_id skill_id type => Some (call_insert user_id skill_id type)
  | _ => None
  end.

Fixpoint calls (tr : list Obs) : list Call :=
  match tr with
  | [] => []
  | Observed _ ev _ :: tr' =>
      match call_of ev with
      | Some c => c :: calls tr'
      | None => calls tr'
      end
  end.

Definition toast_of {R : Type} (ev : Eff R) : option Toast.t :=
  match ev with
  | toast t => Some t
  | _ => None
  end.

(** The toasts of a trace, in order. *)
Fixpoint toasts (tr : list Obs) : list Toast.t :=
  match tr with
  | [] => []
  | Observed _ ev _ :: tr' =>
      match toast_of ev with
      | Some t => t :: toasts tr'
      | None => toasts tr'
      end
  end.

(** Every backend call of the trace was issued while [isLoading] was
    [true]. *)
Fixpoint loading_at_calls (tr : list Obs) : bool :=
  match tr with
  | [] => true
  | Observed before ev _ :: tr' =>
      (if is_remote ev then isLoading before else true) && loading_at_calls tr'
  end.

(** The loading flag in the state an effect was performed in. *)
Definition loading_before (o : Obs) : bool :=
  match o with
  | Observed before _ _ => isLoading before
  end.

(** Every effect after the first one was performed while [isLoading] was
    [true]. *)
Definition loading_after_first (tr : list Obs) : bool :=
  match tr with
  | [] => false
  | _ :: rest => forallb loading_before rest
  end.

(** The state with only the loading flag changed. *)
Definition with_isLoading (b : bool) (st : State) : State :=
  apply_eff (setIsLoading (Value b)) st.

(* ================================================================= *)
(** ** Handlers in flight together *)

(** The component between two events: its state and the handlers that were
    started and have not finished. *)
Record Config : Type := mkConfig
  { comp : State; inflight : list (Prog unit) }.

(** The [onChange] callbacks of the form's inputs. *)
Inductive Input : Type :=
| change_skillName (value : string)
| change_category (value : string)
| change_description (value : string)
| change_notify (checked : bool).

Definition input_eff (i : Input) : Eff unit :=
  match i with
  | change_skillName value => setSkillName (Value value)
  | change_category value => setCategory (Value value)
  | change_description value => setDescription (Value value)
  | change_notify checked => setNotify (Value checked)
  end.

Section Interleaving.
Context `{StringPrototype}.

(** A handler starts as the closure of the current render. *)
Inductive launched (st : State) : Prog unit -> Prop :=
| launch_fetchWaitingSkills : launched st fetchWaitingSkills
| launch_fetchAvailableSkills : launched st fetchAvailableSkills
| launch_handleTeachSkill user waitingSkill :
    launched st (handleTeachSkill user st waitingSkill)
| launch_handleAddToWaitingList user :
    launched st (handleAddToWaitingList user st)
| launch_handleAddSkill user :
    launched st (handleAddSkill user st).

(** One event of the page: a handler starts, the user edits the form, a
    handler in flight performs its next effect (the backend answering
    anything), or a handler in flight finishes. *)
Inductive step : Config -> Config -> Prop :=
| step_launch st pool p :
    launched st p ->
    step (mkConfig st pool) (mkConfig st (pool ++ [p]))
| step_input st pool i :
    step (mkConfig st pool) (mkConfig (apply_eff (input_eff i) st) pool)
| step_effect st pre post (R : Type) (ev : Eff R) k (answer : R) :
    step (mkConfig st (pre ++ Vis ev k :: post))
         (mkConfig (apply_eff ev st) (pre ++ k answer :: post))
| step_return st pre post a :
    step (mkConfig st (pre ++ Ret a :: post)) (mkConfig st (pre ++ post))
| step_throw st pre post e :
    step (mkConfig st (pre ++ Throw e :: post)) (mkConfig st (pre ++ post)).

(** The configurations the page can be in, from its first render. *)
Inductive reachable : Config -> Prop :=
| reach_mount : reachable (mkConfig initialState [])
| reach_step c c' : reachable c -> step c c' -> reachable c'.

End Interleaving.

(** What an effect writes to the loading flag, if anything. *)
Definition written_flag {R : Type} (ev : Eff R) : option (SetStateAction bool) :=
  match ev with
  | setIsLoading a => Some a
  | _ => None
  end.

(** [resets_flag pending p]: on every path of [p], the last value [p] writes
    to the loading flag is [false]; [pending] is the last value written so
    far ([false] when nothing was written yet). *)
Fixpoint resets_flag {A : Type} (pending : bool) (p : Prog A) : Prop :=
  match p with
  | Ret _ | Throw _ => pending = false
  | Vis ev k =>
      match written_flag ev with
      | Some (Value b) => forall r, resets_flag b (k r)
      | Some (Updater _) => False
      | None => forall r, resets_flag pending (k r)
      end
  end.

(* ================================================================= *)
(** ** Sample data *)

Definition alice : User.t :=
  {| User.id := "u-1"; User.email := Some "alice@example.org" |}.

Definition pottery : SkillItem.t :=
  {| SkillItem.id := "s-7"; SkillItem.name := "Pottery" |}.

Definition wants_pottery : WaitingListEntry.t :=
  {| WaitingListEntry.id := "w-1";
     WaitingListEntry.desired_skill := "pottery";
     WaitingListEntry.created_at := "2024-05-01T10:00:00Z" |}.

Definition wants_juggling : WaitingListEntry.t :=
  {| WaitingListEntry.id := "w-2";
     WaitingListEntry.desired_skill := "Juggling";
     WaitingListEntry.created_at := "2024-05-02T10:00:00Z" |}.

(** A page that has loaded one catalog item and two entries. *)
Definition loaded : State :=
  {| waitingSkills := [wants_pottery; wants_juggling];
     isLoading := false;
     availableSkills := [pottery];
     newSkill := "";
     skillName := "";
     category := "";
     description := "";
     notify := true |}.

(** The page with the full form filled in and the checkbox cleared. *)
Definition filled : State :=
  {| waitingSkills := [wants_juggling];
     isLoading := false;
     availableSkills := [pottery];
     newSkill := "  Weaving ";
     skillName := " Pottery ";
     category := "Arts & Crafts";
     description := "wheel throwing";
     notify := false |}.

Definition network_down : JsError := {| message := "Failed to fetch" |}.

Definition ok : PostgrestResponse unit := mkResponse (Some tt) None.

(** A backend on which every call succeeds. *)
Definition backend_up : Backend :=
  {| fetched := Fulfilled [wants_juggling; wants_pottery];
     add_answer := fun _ _ _ _ => Fulfilled {| success := true |};
     removed := fun _ => Fulfilled tt;
     selected := Fulfilled (mkResponse (Some [pottery]) None);
     inserted := fun _ _ _ => Fulfilled ok |}.

(** A backend on which every call rejects. *)
Definition backend_down : Backend :=
  {| fetched := Rejected network_down;
     add_answer := fun _ _ _ _ => Rejected network_down;
     removed := fun _ => Rejected network_down;
     selected := Rejected network_down;
     inserted := fun _ _ _ => Rejected network_down |}.

(** A backend that accepts the association insert and fails the removal. *)
Definition backend_no_remove : Backend :=
  {| fetched := Fulfilled [wants_pottery];
     add_answer := fun _ _ _ _ => Fulfilled {| success := true |};
     removed := fun _ => Rejected network_down;
     selected := Fulfilled (mkResponse (Some [pottery]) None);
     inserted := fun _ _ _ => Fulfilled ok |}.

(** A backend whose add call resolves with [{ success: false }]. *)
Definition backend_refuses : Backend :=
  {| fetched := Fulfilled [wants_pottery];
     add_answer := fun _ _ _ _ => Fulfilled {| success := false |};
     removed := fun _ => Fulfilled tt;
     selected := Fulfilled (mkResponse (Some [pottery]) None);
     inserted := fun _ _ _ => Fulfilled ok |}.

(** A page whose full form has only blanks for a skill name. *)
Definition blank_name : State :=
  {| waitingSkills := [wants_juggling];
     isLoading := false;
     availableSkills := [pottery];
     newSkill := "";
     skillName := "   ";
     category := "Music";
     description := "";
     notify := true |}.

(* ================================================================= *)
(** ** Outcomes of backend calls *)

(** The awaited promise resolved. *)
Definition fulfilled {A : Type} (s : Settled A) : bool :=
  match s with
  | Fulfilled _ => true
  | Rejected _ => false
  end.

(** A supabase query succeeded: the promise resolved and the response
    carries no [error]. *)
Definition accepted {A : Type} (s : Settled (PostgrestResponse A)) : bool :=
  match s with
  | Fulfilled resp =>
      match error resp with
      | None => true
      | Some _ => false
      end
  | Rejected _ => false
  end.

(** The entry matches some catalog item: [same_name] holds of one of
    [availableSkills]. *)
Definition in_catalog `{StringPrototype} (catalog : list SkillItem.t)
  (waitingSkill : WaitingListEntry.t) : bool :=
  existsb (same_name waitingSkill) catalog.

Section Submissions.
Context `{StringPrototype}.
Variables (be : Backend) (user : User.t) (rendered : State).

(** The add call of the quick-add, and the backend's answer to it. *)
Definition quick_call : Call :=
  call_add (or_else (User.email user) "") (trim (newSkill rendered))
    None (User.id user).

Definition quick_answer : Settled AddResult :=
  add_answer be (or_else (User.email user) "") (trim (newSkill rendered))
    None (User.id user).

(** The add call of the full form, and the backend's answer to it. *)
Definition full_call : Call :=
  call_add (or_else (User.email user) "") (trim (skillName rendered))
    (Some (category rendered)) (User.id user).

Definition full_answer : Settled AddResult :=
  add_answer be (or_else (User.email user) "") (trim (skillName rendered))
    (Some (category rendered)) (User.id user).

(** The cache after a re-fetch: the fetched sequence, or the old one when
    the fetch rejected. *)
Definition refetched (old : list WaitingListEntry.t)
  : list WaitingListEntry.t :=
  match fetched be with
  | Fulfilled entries => entries
  | Rejected _ => old
  end.

(** The toast of a re-fetch that rejected. *)
Definition refetch_toasts : list Toast.t :=
  match fetched be with
  | Fulfilled _ => []
  | Rejected _ => [load_failed]
  end.

End Submissions.

(* ================================================================= *)
(** ** Accounting for the loading flag *)

Definition sets_flag_true {R : Type} (ev : Eff R) : bool :=
  match ev with
  | setIsLoading (Value true) => true
  | _ => false
  end.

(** Some effect of the trace is [setIsLoading(true)]. *)
Fixpoint sets_loading (tr : list Obs) : bool :=
  match tr with
  | [] => false
  | Observed _ ev _ :: tr' => sets_flag_true ev || sets_loading tr'
  end.

(** Every handler in flight has its flag value [pending], each resets the
    flag on all its paths, and a flag that is up has a handler that still
    owes the reset. *)
Definition accounted (c : Config) : Prop :=
  exists flags : list bool,
    Forall2 (fun pending p => resets_flag pending p) flags (inflight c) /\
    (isLoading (comp c) = true -> In true flags).

(** A scheduler: the first handler in flight performs its next effect, the
    backend [be] answering, or leaves when it has finished. *)
Definition advance (be : Backend) (c : Config) : Config :=
  match inflight c with
  | [] => c
  | Ret _ :: post => mkConfig (comp c) post
  | Throw _ :: post => mkConfig (comp c) post
  | Vis ev k :: post =>
      mkConfig (apply_eff ev (comp c)) (k (respond be ev) :: post)
  end.

(** The page once both loads of the mount effect have run to their end on a
    backend that is up. *)
Definition after_mount : Config :=
  Nat.iter 8 (advance backend_up)
    (mkConfig initialState [fetchWaitingSkills; fetchAvailableSkills]).

(** Alice then offers to teach the pottery entry while the list is being
    re-loaded, on a backend that fails the removal; both run to their end. *)
Definition after_offer : Config :=
  Nat.iter 12 (advance backend_no_remove)
    (mkConfig (comp after_mount)
       (inflight after_mount
          ++ [fetchWaitingSkills;
              handleTeachSkill (Some alice) (comp after_mount) wants_pottery])).

(* ================================================================= *)
(** ** More ways to read a handler *)

(** The teach-offer goes through: the insert, when the lookup found an
    item, was accepted, and the removal resolved. *)
Definition offer_succeeds `{StringPrototype} (be : Backend) (user : User.t)
  (rendered : State) (waitingSkill : WaitingListEntry.t) : bool :=
  match find (same_name waitingSkill) (availableSkills rendered) with
  | Some skillItem =>
      accepted (inserted be (User.id user) (SkillItem.id skillItem) "teach")
  | None => true
  end
  && fulfilled (removed be (WaitingListEntry.id waitingSkill)).

(** What [setAvailableSkills(data || [])] stores for an answer of the
    catalog query, if it gets that far. *)
Definition catalog_of (s : Settled (PostgrestResponse (list SkillItem.t)))
  : option (list SkillItem.t) :=
  match s with
  | Fulfilled resp =>
      match error resp with
      | Some _ => None
      | None => Some (match data resp with Some d => d | None => [] end)
      end
  | Rejected _ => None
  end.

Definition is_insert (c : Call) : bool :=
  match c with
  | call_insert _ _ _ => true
  | _ => false
  end.

(** No path of the program ends in an exception. *)
Fixpoint never_throws {A : Type} (p : Prog A) : Prop :=
  match p with
  | Ret _ => True
  | Throw _ => False
  | Vis _ k => forall r, never_throws (k r)
  end.

(** Every effect on every path of the program is of the given kind. *)
Fixpoint performs_only {A : Type} (kind : forall R : Type, Eff R -> bool)
  (p : Prog A) : Prop :=
  match p with
  | Ret _ => True
  | Throw _ => True
  | Vis ev k => kind _ ev = true /\ forall r, performs_only kind (k r)
  end.

(** The effect leaves the [availableSkills] cell alone. *)
Definition keeps_catalog (R : Type) (ev : Eff R) : bool :=
  match ev with
  | setAvailableSkills _ => false
  | _ => true
  end.

(** The effect leaves the [notify] cell alone. *)
Definition keeps_notify (R : Type) (ev : Eff R) : bool :=
  match ev with
  | setNotify _ => false
  | _ => true
  end.

(** The effect writes no cell other than [availableSkills]. *)
Definition catalog_only (R : Type) (ev : Eff R) : bool :=
  match ev with
  | setWaitingSkills _ | setIsLoading _ | setNewSkill _ | setSkillName _
  | setCategory _ | setDescription _ | setNotify _ => false
  | _ => true
  end.

(** Two handlers started together, as the mount effect starts the two
    loads: the schedule says which of the two performs its next effect
    ([true] for the first); a handler that has finished lets the turn pass;
    when the schedule is used up, what is left of the first runs, then what
    is left of the second.  The result is the state at the end. *)
Fixpoint interleave (be : Backend) (sched : list bool) (a b : Prog unit)
  (st : State) : State :=
  match sched with
  | [] => final (run be b (final (run be a st)))
  | true :: sched' =>
      match a with
      | Vis ev k => interleave be sched' (k (respond be ev)) b (apply_eff ev st)
      | _ => interleave be sched' a b st
      end
  | false :: sched' =>
      match b with
      | Vis ev k => interleave be sched' a (k (respond be ev)) (apply_eff ev st)
      | _ => interleave be sched' a b st
      end
  end.

(** What a call of the quick-add must look like. *)
Definition quick_shape `{StringPrototype} (rendered : State) (c : Call) : Prop :=
  match c with
  | call_add _ skill cat _ =>
      skill = trim (newSkill rendered) /\ skill <> "" /\ cat = None
  | call_fetch => True
  | _ => False
  end.

(** What a call of the full form must look like. *)
Definition full_shape `{StringPrototype} (rendered : State) (c : Call) : Prop :=
  match c with
  | call_add _ skill cat _ =>
      skill = trim (skillName rendered) /\ skill <> "" /\
      cat = Some (category rendered) /\ category rendered <> ""
  | call_fetch => True
  | _ => False
  end.

(** *** More sample data *)

(** A user whose account has no email. *)
Definition bob : User.t := {| User.id := "u-2"; User.email := None |}.

Definition pottery_again : SkillItem.t :=
  {| SkillItem.id := "s-9"; SkillItem.name := "POTTERY" |}.

Definition juggling : SkillItem.t :=
  {| SkillItem.id := "s-3"; SkillItem.name := "juggling" |}.

Definition wants_POTTERY : WaitingListEntry.t :=
  {| WaitingListEntry.id := "w-3";
     WaitingListEntry.desired_skill := "POTTERY";
     WaitingListEntry.created_at := "2024-05-03T10:00:00Z" |}.

(** An entry listed a second time under the id of [wants_pottery]. *)
Definition pottery_twin : WaitingListEntry.t :=
  {| WaitingListEntry.id := "w-1";
     WaitingListEntry.desired_skill := "Pottery wheel";
     WaitingListEntry.created_at := "2024-05-04T10:00:00Z" |}.

(** A page whose catalog lists pottery twice and whose list repeats an
    id. *)
Definition crowded : State :=
  {| waitingSkills := [wants_pottery; wants_juggling; pottery_twin];
     isLoading := false;
     availableSkills := [juggling; pottery; pottery_again];
     newSkill := "";
     skillName := "";
     category := "";
     description := "";
     notify := true |}.

(** The filled-in page with another description and the checkbox set. *)
Definition filled_otherwise : State :=
  {| waitingSkills := [wants_juggling];
     isLoading := false;
     availableSkills := [pottery];
     newSkill := "Archery";
     skillName := " Pottery ";
     category := "Arts & Crafts";
     description := "hand building";
     notify := true |}.

(** Walk every path of a run, splitting on whatever blocks it. *)
Ltac walk_run :=
  repeat (cbn;
          match goal with
          | |- context [match ?x with _ => _ end] => destruct x eqn:?
          end).

(** Walk every path of a tree of effects down to its leaves. *)
Ltac walk_tree :=
  repeat (cbn;
          match goal with
          | |- forall _, _ => intro
          | |- _ /\ _ => split
          | |- True => exact I
          | |- _ = _ => reflexivity
          | |- context [match ?x with _ => _ end] => destruct x
          end).

(* ================================================================= *)
(** ** Proof automation *)

(** Unfold a handler down to its tree of effects. *)
Ltac run_handler :=
  cbv [handleTeachSkill handleAddToWaitingList handleAddSkill
       fetchWaitingSkills fetchAvailableSkills try_catch_finally
       perform await];
  cbn.

(** Walk every path of a tree of effects. *)
Ltac flag_paths :=
  repeat (cbn;
          match goal with
          | |- forall _, _ => intro
          | |- _ = _ => reflexivity
          | |- context [match ?x with _ => _ end] => destruct x
          | |- context [if ?x then _ else _] => destruct x
          end).

(* ================================================================= *)
(** ** Loading the waiting list *)

Section Loading.
Context `{StringPrototype}.

(** C7. A run of [fetchWaitingSkills] first sets the loading flag, issues
    the one fetch call while the flag is [true], keeps the flag [true] for
    everything it does with the answer, and ends with the flag [false].
    When the fetch rejects, the cached [waitingSkills] are the ones from
    before the run and the "Failed to load waiting skills" toast is shown;
    when it resolves, the cache is the fetched sequence, whatever it held
    before. *)
Theorem fetchWaitingSkills_cache (be : Backend) (st : State) :
  let r := run be fetchWaitingSkills st in
  calls (trace r) = [call_fetch] /\
  loading_at_calls (trace r) = true /\
  loading_after_first (trace r) = true /\
  isLoading (final r) = false /\
  completion r = Returned tt /\
  match fetched be with
  | Rejected _ =>
      waitingSkills (final r) = waitingSkills st /\
      toasts (trace r) = [load_failed]
  | Fulfilled entries =>
      waitingSkills (final r) = entries /\
      toasts (trace r) = []
  end.
Proof.
  run_handler. destruct (fetched be); cbn; repeat split; reflexivity.
Qed.

End Loading.

(* ================================================================= *)
(** ** Offering to teach *)

Section TeachOffer.
Context `{StringPrototype}.

Variables (be : Backend) (user : User.t).
Variables (rendered st : State) (waitingSkill : WaitingListEntry.t).

Let r := run be (handleTeachSkill (Some user) rendered waitingSkill) st.
Let remove := call_remove (WaitingListEntry.id waitingSkill).

(** [find] returns a catalog item exactly when the entry matches one, and
    the item it returns matches. *)
Lemma find_in_catalog :
  in_catalog (availableSkills rendered) waitingSkill = true ->
  exists skillItem,
    find (same_name waitingSkill) (availableSkills rendered) = Some skillItem /\
    In skillItem (availableSkills rendered) /\
    same_name waitingSkill skillItem = true.
Proof.
  unfold in_catalog. intros Hex.
  destruct (find (same_name waitingSkill) (availableSkills rendered))
    as [skillItem|] eqn:Hfind.
  - exists skillItem. apply find_some in Hfind. tauto.
  - apply existsb_exists in Hex. destruct Hex as [x [Hin Hx]].
    rewrite (find_none _ _ Hfind x Hin) in Hx. discriminate.
Qed.

Lemma find_not_in_catalog :
  in_catalog (availableSkills rendered) waitingSkill = false ->
  find (same_name waitingSkill) (availableSkills rendered) = None.
Proof.
  unfold in_catalog. intros Hex.
  destruct (find (same_name waitingSkill) (availableSkills rendered))
    as [skillItem|] eqn:Hfind; [|reflexivity].
  apply find_some in Hfind. destruct Hfind as [Hin Hx].
  assert (existsb (same_name waitingSkill) (availableSkills rendered) = true)
    by (apply existsb_exists; eauto).
  congruence.
Qed.

(** The run of a teach-offer whose lookup found [skillItem]. *)
Lemma teach_offer_found (skillItem : SkillItem.t) :
  find (same_name waitingSkill) (availableSkills rendered) = Some skillItem ->
  let answer := inserted be (User.id user) (SkillItem.id skillItem) "teach" in
  calls (trace r) =
    call_insert (User.id user) (SkillItem.id skillItem) "teach"
      :: (if accepted answer then [remove] else []) /\
  final r =
    (if accepted answer
        && fulfilled (removed be (WaitingListEntry.id waitingSkill))
     then with_isLoading false
            (apply_eff (setWaitingSkills
                          (Updater (filter (other_than waitingSkill)))) st)
     else with_isLoading false st) /\
  toasts (trace r) =
    (if accepted answer
        && fulfilled (removed be (WaitingListEntry.id waitingSkill))
     then [offered waitingSkill] else [offer_failed]) /\
  completion r = Returned tt.
Proof.
  intros Hfind. subst r remove. run_handler. rewrite Hfind. cbn.
  destruct (inserted be (User.id user) (SkillItem.id skillItem) "teach")
    as [[d [e|]]|e]; cbn;
    try (repeat split; reflexivity).
  destruct (removed be (WaitingListEntry.id waitingSkill)); cbn;
    repeat split; reflexivity.
Qed.

(** The run of a teach-offer whose lookup found nothing. *)
Lemma teach_offer_not_found :
  find (same_name waitingSkill) (availableSkills rendered) = None ->
  calls (trace r) = [remove] /\
  final r =
    (if fulfilled (removed be (WaitingListEntry.id waitingSkill))
     then with_isLoading false
            (apply_eff (setWaitingSkills
                          (Updater (filter (other_than waitingSkill)))) st)
     else with_isLoading false st) /\
  toasts (trace r) =
    (if fulfilled (removed be (WaitingListEntry.id waitingSkill))
     then [offered waitingSkill] else [offer_failed]) /\
  completion r = Returned tt.
Proof.
  intros Hfind. subst r remove. run_handler. rewrite Hfind. cbn.
  destruct (removed be (WaitingListEntry.id waitingSkill)); cbn;
    repeat split; reflexivity.
Qed.

(** C1. A signed-in user offers to teach an entry that matches the
    catalog.  The lookup yields a catalog item [skillItem] with the same
    lower-cased name; exactly one insert into [user_skills] is requested,
    with the user's id, [skillItem]'s id and type "teach"; the removal of
    the entry by id is requested after it, and only when the insert
    succeeded; and the cached sequence loses the entries with that id
    once the removal has resolved, and is left as it was otherwise. *)
Theorem teach_offer_on_match :
  in_catalog (availableSkills rendered) waitingSkill = true ->
  exists skillItem,
    In skillItem (availableSkills rendered) /\
    toLowerCase (SkillItem.name skillItem) =
      toLowerCase (WaitingListEntry.desired_skill waitingSkill) /\
    let answer := inserted be (User.id user) (SkillItem.id skillItem) "teach" in
    calls (trace r) =
      call_insert (User.id user) (SkillItem.id skillItem) "teach"
        :: (if accepted answer then [remove] else []) /\
    waitingSkills (final r) =
      (if accepted answer
          && fulfilled (removed be (WaitingListEntry.id waitingSkill))
       then filter (other_than waitingSkill) (waitingSkills st)
       else waitingSkills st).
Proof.
  intros Hin. destruct (find_in_catalog Hin) as [skillItem [Hfind [Hmem Hsame]]].
  exists skillItem. split; [exact Hmem|]. split.
  - apply String.eqb_eq. exact Hsame.
  - destruct (teach_offer_found Hfind) as [Hcalls [Hfinal _]].
    cbv zeta in *. split; [exact Hcalls|]. rewrite Hfinal.
    destruct (accepted _ && fulfilled _); reflexivity.
Qed.

(** C2. The insert succeeded and the removal of the entry failed.  The
    cached sequence is the one from before the offer, so the entry is
    still listed; the removal is the last call to the backend, so nothing
    undoes the insert; and the "Could not offer this skill" toast is
    shown. *)
Theorem teach_offer_removal_fails (skillItem : SkillItem.t) :
  find (same_name waitingSkill) (availableSkills rendered) = Some skillItem ->
  accepted (inserted be (User.id user) (SkillItem.id skillItem) "teach") = true ->
  fulfilled (removed be (WaitingListEntry.id waitingSkill)) = false ->
  waitingSkills (final r) = waitingSkills st /\
  calls (trace r) =
    [call_insert (User.id user) (SkillItem.id skillItem) "teach"; remove] /\
  toasts (trace r) = [offer_failed].
Proof.
  intros Hfind Hins Hrem.
  destruct (teach_offer_found Hfind) as [Hcalls [Hfinal [Htoasts _]]].
  cbv zeta in *. rewrite Hins, Hrem in *. cbn in *.
  rewrite Hcalls, Hfinal, Htoasts. repeat split; reflexivity.
Qed.

(** C4. A signed-in user offers to teach an entry that matches nothing in
    the catalog.  No insert is requested: the removal of the entry by id
    is the only call to the backend; the cached sequence loses the entries
    with that id once the removal has resolved. *)
Theorem teach_offer_without_match :
  in_catalog (availableSkills rendered) waitingSkill = false ->
  calls (trace r) = [remove] /\
  waitingSkills (final r) =
    (if fulfilled (removed be (WaitingListEntry.id waitingSkill))
     then filter (other_than waitingSkill) (waitingSkills st)
     else waitingSkills st).
Proof.
  intros Hno.
  destruct (teach_offer_not_found (find_not_in_catalog Hno))
    as [Hcalls [Hfinal _]].
  split; [exact Hcalls|]. rewrite Hfinal.
  destruct (fulfilled _); reflexivity.
Qed.

(** C5. The insert failed: the promise rejected or the response carries
    an error.  The handler returns after the "Could not offer this skill"
    toast; the insert is the only call to the backend, so no removal is
    requested; the state, and with it the cached sequence, is the one
    from before the offer with the loading flag [false]. *)
Theorem teach_offer_insert_fails (skillItem : SkillItem.t) :
  find (same_name waitingSkill) (availableSkills rendered) = Some skillItem ->
  accepted (inserted be (User.id user) (SkillItem.id skillItem) "teach") = false ->
  toasts (trace r) = [offer_failed] /\
  completion r = Returned tt /\
  calls (trace r) =
    [call_insert (User.id user) (SkillItem.id skillItem) "teach"] /\
  waitingSkills (final r) = waitingSkills st /\
  final r = with_isLoading false st.
Proof.
  intros Hfind Hins.
  destruct (teach_offer_found Hfind) as [Hcalls [Hfinal [Htoasts Hdone]]].
  cbv zeta in *. rewrite Hins in *. cbn in *.
  rewrite Hcalls, Hfinal, Htoasts, Hdone. repeat split; reflexivity.
Qed.

End TeachOffer.

(* ================================================================= *)
(** ** Acting while signed out *)

Section SignedOut.
Context `{StringPrototype}.

(** C3, as the code has it.  With no user signed in, none of the three
    mutating handlers calls the backend or changes the state.  The full
    form shows the destructive "Please sign in" toast, right after
    [preventDefault]; the quick-add and the teach-offer return without
    any toast. *)
Theorem signed_out_no_backend_call (be : Backend) (rendered st : State)
  (waitingSkill : WaitingListEntry.t) :
  let quick := run be (handleAddToWaitingList None rendered) st in
  let full := run be (handleAddSkill None rendered) st in
  let teach := run be (handleTeachSkill None rendered waitingSkill) st in
  (calls (trace quick) = [] /\ calls (trace full) = [] /\
   calls (trace teach) = []) /\
  (final quick = st /\ final full = st /\ final teach = st) /\
  (toasts (trace full) = [sign_in_first] /\
   Toast.variant sign_in_first = Some Toast.destructive) /\
  (toasts (trace quick) = [] /\ toasts (trace teach) = []).
Proof.
  cbn. repeat split; reflexivity.
Qed.

End SignedOut.

(** C3 as stated fails: a signed-out teach-offer, and a signed-out
    quick-add, show no toast at all. *)
Lemma signed_out_teach_offer_is_silent :
  toasts (trace (run backend_up (handleTeachSkill None loaded wants_pottery) loaded)) = [] /\
  toasts (trace (run backend_up (handleAddToWaitingList None filled) filled)) = [].
Proof.
  split; reflexivity.
Qed.

(* ================================================================= *)
(** ** Submitting a request *)

Section Submit.
Context `{StringPrototype}.

Variables (be : Backend) (user : User.t) (rendered st : State).

(** C6. A signed-in user submits the full form with a skill name that is
    empty once trimmed, or with no category selected.  The handler calls
    the backend for nothing, shows the destructive "Please fill in all
    required fields" toast, and leaves the state as it was. *)
Theorem full_form_missing_field :
  trim (skillName rendered) = "" \/ category rendered = "" ->
  let r := run be (handleAddSkill (Some user) rendered) st in
  calls (trace r) = [] /\
  toasts (trace r) = [fields_required] /\
  final r = st.
Proof.
  intros Hmissing. run_handler. unfold truthy.
  destruct Hmissing as [Hname | Hcat].
  - rewrite Hname. cbn. repeat split; reflexivity.
  - rewrite Hcat. cbn. rewrite orb_true_r. cbn. repeat split; reflexivity.
Qed.

(** C8. The add call resolved with [success: true].  The handler then
    calls [fetchWaitingListEntries] and nothing else; the cache becomes
    the fetched sequence (it keeps the old one when that fetch rejects)
    and is never edited in place; the fields the handler submitted are
    emptied -- [newSkill] for the quick-add, [skillName], [category] and
    [description] for the full form, whose checkbox [notify] keeps its
    value; and the last toast is "Skill added to waiting list". *)
Theorem submit_succeeds :
  (truthy (trim (newSkill rendered)) = true ->
   quick_answer be user rendered = Fulfilled {| success := true |} ->
   let r := run be (handleAddToWaitingList (Some user) rendered) st in
   calls (trace r) = [quick_call user rendered; call_fetch] /\
   waitingSkills (final r) = refetched be (waitingSkills st) /\
   newSkill (final r) = "" /\
   toasts (trace r) = refetch_toasts be ++ [added])
  /\
  (truthy (trim (skillName rendered)) = true ->
   truthy (category rendered) = true ->
   full_answer be user rendered = Fulfilled {| success := true |} ->
   let r := run be (handleAddSkill (Some user) rendered) st in
   calls (trace r) = [full_call user rendered; call_fetch] /\
   waitingSkills (final r) = refetched be (waitingSkills st) /\
   (skillName (final r) = "" /\ category (final r) = "" /\
    description (final r) = "" /\ notify (final r) = notify st) /\
   toasts (trace r) = refetch_toasts be ++ [added]).
Proof.
  unfold quick_answer, full_answer, quick_call, full_call, refetched,
    refetch_toasts.
  split.
  - intros Hname Hadd. run_handler. rewrite Hname. cbn. rewrite Hadd. cbn.
    destruct (fetched be); cbn; repeat split; reflexivity.
  - intros Hname Hcat Hadd. run_handler. rewrite Hname, Hcat. cbn.
    rewrite Hadd. cbn.
    destruct (fetched be); cbn; repeat split; reflexivity.
Qed.

(** C9. The add call resolved with [success: false].  The add call is the
    only call to the backend, so nothing is re-fetched; no toast is
    shown; and the state is the one from before the submission with the
    loading flag [false]: the cache and every form field are as they
    were. *)
Theorem submit_refused :
  (truthy (trim (newSkill rendered)) = true ->
   quick_answer be user rendered = Fulfilled {| success := false |} ->
   let r := run be (handleAddToWaitingList (Some user) rendered) st in
   calls (trace r) = [quick_call user rendered] /\
   toasts (trace r) = [] /\
   final r = with_isLoading false st)
  /\
  (truthy (trim (skillName rendered)) = true ->
   truthy (category rendered) = true ->
   full_answer be user rendered = Fulfilled {| success := false |} ->
   let r := run be (handleAddSkill (Some user) rendered) st in
   calls (trace r) = [full_call user rendered] /\
   toasts (trace r) = [] /\
   final r = with_isLoading false st).
Proof.
  unfold quick_answer, full_answer, quick_call, full_call.
  split.
  - intros Hname Hadd. run_handler. rewrite Hname. cbn. rewrite Hadd. cbn.
    repeat split; reflexivity.
  - intros Hname Hcat Hadd. run_handler. rewrite Hname, Hcat. cbn.
    rewrite Hadd. cbn. repeat split; reflexivity.
Qed.

End Submit.

(* ================================================================= *)
(** ** The loading flag *)

Lemma isLoading_written (R : Type) (ev : Eff R) (a : SetStateAction bool)
  (st : State) :
  written_flag ev = Some a ->
  isLoading (apply_eff ev st) = apply_action a (isLoading st).
Proof.
  destruct ev; cbn; intros Hw; try discriminate.
  injection Hw as ->. reflexivity.
Qed.

Lemma isLoading_untouched (R : Type) (ev : Eff R) (st : State) :
  written_flag ev = None ->
  isLoading (apply_eff ev st) = isLoading st.
Proof.
  destruct ev; cbn; intros Hw; try discriminate; reflexivity.
Qed.

Lemma untouched_not_set (R : Type) (ev : Eff R) :
  written_flag ev = None -> sets_flag_true ev = false.
Proof.
  destruct ev; cbn; intros Hw; try discriminate; reflexivity.
Qed.

(** A program that resets the flag on all its paths, run alone: it ends
    with the flag [false], or it never touched the flag. *)
Lemma run_resets_flag (A : Type) (p : Prog A) :
  forall (pending : bool) (be : Backend) (st : State),
    resets_flag pending p ->
    isLoading (final (run be p st)) = false \/
    (pending = false /\
     sets_loading (trace (run be p st)) = false /\
     isLoading (final (run be p st)) = isLoading st).
Proof.
  induction p as [a | e | R ev k IH]; intros pending be st Hp.
  - right. cbn in *. auto.
  - right. cbn in *. auto.
  - cbn in Hp. cbn [run final trace sets_loading].
    destruct (written_flag ev) as [[b | f] |] eqn:Hw.
    + destruct (IH (respond be ev) b be (apply_eff ev st) (Hp _))
        as [Hdown | [Hb [_ Hsame]]].
      * left. exact Hdown.
      * left. rewrite Hsame, (isLoading_written ev st Hw). exact Hb.
    + contradiction.
    + destruct (IH (respond be ev) pending be (apply_eff ev st) (Hp _))
        as [Hdown | [Hb [Hquiet Hsame]]].
      * left. exact Hdown.
      * right. rewrite (untouched_not_set ev Hw), Hquiet, Hsame,
          (isLoading_untouched ev st Hw). auto.
Qed.

Section Flag.
Context `{StringPrototype}.

(** Every handler of the page resets the flag on all its paths. *)
Lemma launched_resets_flag (st : State) (p : Prog unit) :
  launched st p -> resets_flag false p.
Proof.
  intros Hl. destruct Hl; run_handler; flag_paths.
Qed.

Lemma step_accounted (c c' : Config) :
  accounted c -> step c c' -> accounted c'.
Proof.
  intros [flags [Hall Hup]] Hstep. unfold accounted.
  destruct Hstep; cbn in *.
  - exists (flags ++ [false]). split.
    + apply Forall2_app; [exact Hall|].
      constructor; [|constructor]. eapply launched_resets_flag; eassumption.
    + intros Ht. apply in_or_app. left. auto.
  - exists flags. split; [exact Hall|].
    intros Ht. apply Hup. rewrite <- Ht. symmetry.
    apply isLoading_untouched. destruct i; reflexivity.
  - apply Forall2_app_inv_r in Hall.
    destruct Hall as [l1 [l2 [Hpre [Hcur ->]]]].
    inversion Hcur as [| pending p fl pl Hp Hpost]; subst.
    cbn in Hp.
    destruct (written_flag ev) as [[b | f] |] eqn:Hw.
    + exists (l1 ++ b :: fl). split.
      * apply Forall2_app; [exact Hpre|]. constructor; [apply Hp | exact Hpost].
      * intros Ht. rewrite (isLoading_written ev st Hw) in Ht. cbn in Ht.
        apply in_or_app. right. left. exact Ht.
    + contradiction.
    + exists (l1 ++ pending :: fl). split.
      * apply Forall2_app; [exact Hpre|]. constructor; [apply Hp | exact Hpost].
      * intros Ht. rewrite (isLoading_untouched ev st Hw) in Ht. auto.
  - apply Forall2_app_inv_r in Hall.
    destruct Hall as [l1 [l2 [Hpre [Hcur ->]]]].
    inversion Hcur as [| pending p fl pl Hp Hpost]; subst. cbn in Hp. subst.
    exists (l1 ++ fl). split.
    + apply Forall2_app; assumption.
    + intros Ht. apply Hup in Ht. apply in_app_or in Ht.
      apply in_or_app. destruct Ht as [Ht | [Ht | Ht]]; auto. discriminate.
  - apply Forall2_app_inv_r in Hall.
    destruct Hall as [l1 [l2 [Hpre [Hcur ->]]]].
    inversion Hcur as [| pending p fl pl Hp Hpost]; subst. cbn in Hp. subst.
    exists (l1 ++ fl). split.
    + apply Forall2_app; assumption.
    + intros Ht. apply Hup in Ht. apply in_app_or in Ht.
      apply in_or_app. destruct Ht as [Ht | [Ht | Ht]]; auto. discriminate.
Qed.

Lemma reachable_accounted (c : Config) : reachable c -> accounted c.
Proof.
  induction 1 as [| c c' _ IH Hstep].
  - exists []. split; [constructor | discriminate].
  - eapply step_accounted; eassumption.
Qed.

Lemma advance_reachable (be : Backend) (c : Config) :
  reachable c -> reachable (advance be c).
Proof.
  destruct c as [st pool]. intros Hc.
  destruct pool as [| [a | e | R ev k] post]; cbn.
  - exact Hc.
  - eapply reach_step; [exact Hc|]. apply (step_return st [] post a).
  - eapply reach_step; [exact Hc|]. apply (step_throw st [] post e).
  - eapply reach_step; [exact Hc|].
    apply (step_effect st [] post ev k (respond be ev)).
Qed.

Lemma launch_reachable (c : Config) (p : Prog unit) :
  reachable c -> launched (comp c) p ->
  reachable (mkConfig (comp c) (inflight c ++ [p])).
Proof.
  destruct c as [st pool]. intros Hc Hl.
  eapply reach_step; [exact Hc|]. apply step_launch. exact Hl.
Qed.

(** C10. The waiting-list load, the teach-offer of a signed-in user, and
    a quick-add and a full-form submit that pass their guards set the
    loading flag to [true].  Every run of a handler that sets the flag to
    [true] ends with the flag [false], whatever the backend answered.
    And however the handlers in flight interleave, from the first render
    on, the flag is [false] whenever none is in flight any more. *)
Theorem loading_flag_reset :
  (forall be user rendered st waitingSkill,
      sets_loading (trace (run be fetchWaitingSkills st)) = true /\
      sets_loading
        (trace (run be (handleTeachSkill (Some user) rendered waitingSkill) st))
        = true /\
      (truthy (trim (newSkill rendered)) = true ->
       sets_loading
         (trace (run be (handleAddToWaitingList (Some user) rendered) st))
         = true) /\
      (truthy (trim (skillName rendered)) = true ->
       truthy (category rendered) = true ->
       sets_loading
         (trace (run be (handleAddSkill (Some user) rendered) st)) = true))
  /\
  (forall rendered p, launched rendered p ->
     forall be st,
       sets_loading (trace (run be p st)) = true ->
       isLoading (final (run be p st)) = false)
  /\
  (forall c, reachable c -> inflight c = [] -> isLoading (comp c) = false).
Proof.
  split; [|split].
  - intros be user rendered st waitingSkill. repeat split.
    + intros Hname. run_handler. rewrite Hname. reflexivity.
    + intros Hname Hcat. run_handler. rewrite Hname, Hcat. reflexivity.
  - intros rendered p Hl be st Hset.
    destruct (@run_resets_flag _ p false be st (launched_resets_flag Hl))
      as [Hdown | [_ [Hquiet _]]]; [exact Hdown | congruence].
  - intros c Hc Hempty.
    destruct (reachable_accounted Hc) as [flags [Hall Hup]].
    rewrite Hempty in Hall. inversion Hall; subst.
    destruct (isLoading (comp c)); [|reflexivity].
    destruct (Hup eq_refl).
Qed.

End Flag.

(* ================================================================= *)
(** ** The theorems on the sample page *)

(** Alice offers to teach "pottery"; the catalog has "Pottery"; the backend
    is up. *)
Lemma teach_offer_on_match_witness :
  in_catalog (availableSkills loaded) wants_pottery = true /\
  exists skillItem,
    In skillItem [pottery] /\
    toLowerCase (SkillItem.name skillItem) = "pottery" /\
    calls (trace (run backend_up
                    (handleTeachSkill (Some alice) loaded wants_pottery) loaded)) =
      [call_insert "u-1" (SkillItem.id skillItem) "teach"; call_remove "w-1"] /\
    waitingSkills (final (run backend_up
                    (handleTeachSkill (Some alice) loaded wants_pottery) loaded)) =
      [wants_juggling].
Proof.
  split; [reflexivity|].
  exact (teach_offer_on_match backend_up alice loaded loaded wants_pottery eq_refl).
Defined.

(** The same offer on a backend that accepts the insert and fails the
    removal. *)
Lemma teach_offer_removal_fails_witness :
  (find (same_name wants_pottery) (availableSkills loaded) = Some pottery /\
   accepted (inserted backend_no_remove "u-1" "s-7" "teach") = true /\
   fulfilled (removed backend_no_remove "w-1") = false) /\
  waitingSkills (final (run backend_no_remove
                  (handleTeachSkill (Some alice) loaded wants_pottery) loaded)) =
    [wants_pottery; wants_juggling] /\
  calls (trace (run backend_no_remove
                  (handleTeachSkill (Some alice) loaded wants_pottery) loaded)) =
    [call_insert "u-1" "s-7" "teach"; call_remove "w-1"] /\
  toasts (trace (run backend_no_remove
                  (handleTeachSkill (Some alice) loaded wants_pottery) loaded)) =
    [offer_failed].
Proof.
  split; [repeat split; reflexivity|].
  exact (teach_offer_removal_fails backend_no_remove alice loaded loaded
           wants_pottery (skillItem := pottery) eq_refl eq_refl eq_refl).
Defined.

(** Alice offers to teach "Juggling", which the catalog does not have. *)
Lemma teach_offer_without_match_witness :
  in_catalog (availableSkills loaded) wants_juggling = false /\
  calls (trace (run backend_up
                  (handleTeachSkill (Some alice) loaded wants_juggling) loaded)) =
    [call_remove "w-2"] /\
  waitingSkills (final (run backend_up
                  (handleTeachSkill (Some alice) loaded wants_juggling) loaded)) =
    [wants_pottery].
Proof.
  split; [reflexivity|].
  exact (teach_offer_without_match backend_up alice loaded loaded
           wants_juggling eq_refl).
Defined.

(** The offer on "pottery" with the backend down: the insert rejects. *)
Lemma teach_offer_insert_fails_witness :
  (find (same_name wants_pottery) (availableSkills loaded) = Some pottery /\
   accepted (inserted backend_down "u-1" "s-7" "teach") = false) /\
  toasts (trace (run backend_down
                  (handleTeachSkill (Some alice) loaded wants_pottery) loaded)) =
    [offer_failed] /\
  completion (run backend_down
                (handleTeachSkill (Some alice) loaded wants_pottery) loaded) =
    Returned tt /\
  calls (trace (run backend_down
                  (handleTeachSkill (Some alice) loaded wants_pottery) loaded)) =
    [call_insert "u-1" "s-7" "teach"] /\
  waitingSkills (final (run backend_down
                  (handleTeachSkill (Some alice) loaded wants_pottery) loaded)) =
    [wants_pottery; wants_juggling] /\
  final (run backend_down
           (handleTeachSkill (Some alice) loaded wants_pottery) loaded) = loaded.
Proof.
  split; [split; reflexivity|].
  exact (teach_offer_insert_fails backend_down alice loaded loaded
           wants_pottery (skillItem := pottery) eq_refl eq_refl).
Defined.

(** The full form with a skill name of three spaces. *)
Lemma full_form_missing_field_witness :
  (trim (skillName blank_name) = "" \/ category blank_name = "") /\
  calls (trace (run backend_up (handleAddSkill (Some alice) blank_name)
                  blank_name)) = [] /\
  toasts (trace (run backend_up (handleAddSkill (Some alice) blank_name)
                   blank_name)) = [fields_required] /\
  final (run backend_up (handleAddSkill (Some alice) blank_name) blank_name) =
    blank_name.
Proof.
  split; [left; reflexivity|].
  exact (full_form_missing_field backend_up alice blank_name blank_name
           (or_introl eq_refl)).
Defined.

(** Both entry points on the filled-in page, the backend up. *)
Lemma submit_succeeds_witness :
  (truthy (trim (newSkill filled)) = true /\
   quick_answer backend_up alice filled = Fulfilled {| success := true |} /\
   truthy (trim (skillName filled)) = true /\
   truthy (category filled) = true /\
   full_answer backend_up alice filled = Fulfilled {| success := true |}) /\
  (calls (trace (run backend_up (handleAddToWaitingList (Some alice) filled)
                   filled)) =
     [call_add "alice@example.org" "Weaving" None "u-1"; call_fetch] /\
   waitingSkills (final (run backend_up
                           (handleAddToWaitingList (Some alice) filled) filled)) =
     [wants_juggling; wants_pottery] /\
   newSkill (final (run backend_up
                      (handleAddToWaitingList (Some alice) filled) filled)) = "" /\
   toasts (trace (run backend_up (handleAddToWaitingList (Some alice) filled)
                    filled)) = [added]) /\
  (calls (trace (run backend_up (handleAddSkill (Some alice) filled) filled)) =
     [call_add "alice@example.org" "Pottery" (Some "Arts & Crafts") "u-1";
      call_fetch] /\
   waitingSkills (final (run backend_up (handleAddSkill (Some alice) filled)
                           filled)) = [wants_juggling; wants_pottery] /\
   (skillName (final (run backend_up (handleAddSkill (Some alice) filled)
                        filled)) = "" /\
    category (final (run backend_up (handleAddSkill (Some alice) filled)
                       filled)) = "" /\
    description (final (run backend_up (handleAddSkill (Some alice) filled)
                          filled)) = "" /\
    notify (final (run backend_up (handleAddSkill (Some alice) filled)
                     filled)) = false) /\
   toasts (trace (run backend_up (handleAddSkill (Some alice) filled) filled)) =
     [added]).
Proof.
  split; [repeat split; reflexivity|].
  split.
  - exact (proj1 (submit_succeeds backend_up alice filled filled)
             eq_refl eq_refl).
  - exact (proj2 (submit_succeeds backend_up alice filled filled)
             eq_refl eq_refl eq_refl).
Defined.

(** Both entry points on a backend that answers [success: false]. *)
Lemma submit_refused_witness :
  (truthy (trim (newSkill filled)) = true /\
   quick_answer backend_refuses alice filled = Fulfilled {| success := false |} /\
   truthy (trim (skillName filled)) = true /\
   truthy (category filled) = true /\
   full_answer backend_refuses alice filled = Fulfilled {| success := false |}) /\
  (calls (trace (run backend_refuses
                   (handleAddToWaitingList (Some alice) filled) filled)) =
     [call_add "alice@example.org" "Weaving" None "u-1"] /\
   toasts (trace (run backend_refuses
                    (handleAddToWaitingList (Some alice) filled) filled)) = [] /\
   final (run backend_refuses (handleAddToWaitingList (Some alice) filled)
            filled) = filled) /\
  (calls (trace (run backend_refuses (handleAddSkill (Some alice) filled)
                   filled)) =
     [call_add "alice@example.org" "Pottery" (Some "Arts & Crafts") "u-1"] /\
   toasts (trace (run backend_refuses (handleAddSkill (Some alice) filled)
                    filled)) = [] /\
   final (run backend_refuses (handleAddSkill (Some alice) filled) filled) =
     filled).
Proof.
  split; [repeat split; reflexivity|].
  split.
  - exact (proj1 (submit_refused backend_refuses alice filled filled)
             eq_refl eq_refl).
  - exact (proj2 (submit_refused backend_refuses alice filled filled)
             eq_refl eq_refl eq_refl).
Defined.

Lemma after_mount_reachable : reachable after_mount.
Proof.
  unfold after_mount.
  assert (Hstart : reachable
            (mkConfig initialState [fetchWaitingSkills; fetchAvailableSkills])).
  { apply (launch_reachable
             (c := mkConfig initialState [fetchWaitingSkills])
             (p := fetchAvailableSkills)).
    - apply (launch_reachable
               (c := mkConfig initialState []) (p := fetchWaitingSkills)).
      + apply reach_mount.
      + apply launch_fetchWaitingSkills.
    - apply launch_fetchAvailableSkills. }
  generalize 8. intros n. induction n as [| n IH]; cbn.
  - exact Hstart.
  - apply advance_reachable. exact IH.
Qed.

Lemma after_offer_reachable : reachable after_offer.
Proof.
  unfold after_offer.
  assert (Hstart : reachable
            (mkConfig (comp after_mount)
               (inflight after_mount
                  ++ [fetchWaitingSkills;
                      handleTeachSkill (Some alice) (comp after_mount)
                        wants_pottery]))).
  { pose proof (launch_reachable after_mount_reachable
                  (launch_fetchWaitingSkills (comp after_mount))) as H1.
    pose proof (launch_reachable H1
                  (launch_handleTeachSkill (comp after_mount) (Some alice)
                     wants_pottery)) as H2.
    cbn [comp inflight] in H2. rewrite <- app_assoc in H2. exact H2. }
  generalize 12. intros n. induction n as [| n IH]; cbn.
  - exact Hstart.
  - apply advance_reachable. exact IH.
Qed.

(** The failed offer of Alice resets the flag, and the page is idle with
    the flag [false] once the load and the offer started after the mount
    have both finished. *)
Lemma loading_flag_reset_witness :
  (sets_loading
     (trace (run backend_no_remove
               (handleTeachSkill (Some alice) loaded wants_pottery) loaded)) = true /\
   isLoading
     (final (run backend_no_remove
               (handleTeachSkill (Some alice) loaded wants_pottery) loaded)) = false) /\
  (inflight after_offer = [] /\ isLoading (comp after_offer) = false).
Proof.
  split; split.
  - reflexivity.
  - exact (proj1 (proj2 loading_flag_reset) loaded _
             (launch_handleTeachSkill loaded (Some alice) wants_pottery)
             backend_no_remove loaded eq_refl).
  - reflexivity.
  - exact (proj2 (proj2 loading_flag_reset) after_offer
             after_offer_reachable eq_refl).
Defined.

(* ================================================================= *)
(** ** Loading the catalog *)

Section Catalog.
Context `{StringPrototype}.

(** X1. [fetchAvailableSkills] issues the one catalog query and returns.
    It never shows a toast and never touches the loading flag.  When the
    query resolves without error, the catalog becomes the rows of the
    answer, or the empty list when the answer has no rows; when it rejects
    or answers with an error, the state is left exactly as it was. *)
Theorem fetchAvailableSkills_catalog (be : Backend) (st : State) :
  let r := run be fetchAvailableSkills st in
  calls (trace r) = [call_select] /\
  toasts (trace r) = [] /\
  completion r = Returned tt /\
  isLoading (final r) = isLoading st /\
  final r =
    match catalog_of (selected be) with
    | Some rows => apply_eff (setAvailableSkills (Value rows)) st
    | None => st
    end.
Proof.
  run_handler. destruct (selected be) as [[d [e |]] | e]; cbn;
    repeat split; reflexivity.
Qed.

(** X2. When the catalog query of the first render fails, the catalog
    stays empty, and a teach-offer made from that page never requests an
    insert: the removal of the entry is its only call to the backend. *)
Theorem failed_catalog_load_disables_matching (be be' : Backend)
  (user : User.t) (st : State) (waitingSkill : WaitingListEntry.t) :
  accepted (selected be) = false ->
  let rendered := final (run be fetchAvailableSkills initialState) in
  availableSkills rendered = [] /\
  calls (trace (run be' (handleTeachSkill (Some user) rendered waitingSkill) st)) =
    [call_remove (WaitingListEntry.id waitingSkill)].
Proof.
  intros Hfail. run_handler.
  destruct (selected be) as [[d [e |]] | e]; cbn in *; try discriminate;
    (split; [reflexivity |]);
    destruct (removed be' (WaitingListEntry.id waitingSkill)); reflexivity.
Qed.

End Catalog.

Lemma failed_catalog_load_disables_matching_witness :
  accepted (selected backend_down) = false /\
  availableSkills (final (run backend_down fetchAvailableSkills initialState)) = [] /\
  calls (trace (run backend_up
                  (handleTeachSkill (Some alice)
                     (final (run backend_down fetchAvailableSkills initialState))
                     wants_pottery) loaded)) =
    [call_remove "w-1"].
Proof.
  split; [reflexivity |].
  exact (failed_catalog_load_disables_matching backend_down backend_up alice
           loaded wants_pottery eq_refl).
Defined.

(* ================================================================= *)
(** ** Submissions that do not go through *)

Section SubmitFails.
Context `{StringPrototype}.

Variables (be : Backend) (user : User.t) (rendered st : State).

(** X3. The add call rejected.  For both entry points the add call is the
    only call to the backend, the one toast is the destructive "Failed to
    add skill to waiting list", the handler returns, and the state is the
    one from before the submission with the loading flag [false]: nothing
    was re-fetched and no form field was emptied. *)
Theorem submit_add_rejects :
  (truthy (trim (newSkill rendered)) = true ->
   fulfilled (quick_answer be user rendered) = false ->
   let r := run be (handleAddToWaitingList (Some user) rendered) st in
   calls (trace r) = [quick_call user rendered] /\
   toasts (trace r) = [add_failed] /\
   completion r = Returned tt /\
   final r = with_isLoading false st)
  /\
  (truthy (trim (skillName rendered)) = true ->
   truthy (category rendered) = true ->
   fulfilled (full_answer be user rendered) = false ->
   let r := run be (handleAddSkill (Some user) rendered) st in
   calls (trace r) = [full_call user rendered] /\
   toasts (trace r) = [add_failed] /\
   completion r = Returned tt /\
   final r = with_isLoading false st).
Proof.
  unfold quick_answer, full_answer, quick_call, full_call. split.
  - intros Hname Hadd. run_handler. rewrite Hname. cbn.
    destruct (add_answer be _ _ _ _); [discriminate |].
    cbn. repeat split; reflexivity.
  - intros Hname Hcat Hadd. run_handler. rewrite Hname, Hcat. cbn.
    destruct (add_answer be _ _ _ _); [discriminate |].
    cbn. repeat split; reflexivity.
Qed.

(** X4. A quick-add whose [newSkill] is empty once trimmed does nothing at
    all, signed in or not: no effect is performed -- no call, no toast, no
    change of the loading flag -- and the state is as it was. *)
Theorem quick_add_blank_is_silent (who : option User.t) :
  trim (newSkill rendered) = "" ->
  let r := run be (handleAddToWaitingList who rendered) st in
  trace r = [] /\ final r = st /\ completion r = Returned tt.
Proof.
  intros Hblank. run_handler. rewrite Hblank.
  destruct who; cbn; repeat split; reflexivity.
Qed.

End SubmitFails.

Lemma submit_add_rejects_witness :
  (truthy (trim (newSkill filled)) = true /\
   fulfilled (quick_answer backend_down alice filled) = false /\
   truthy (trim (skillName filled)) = true /\
   truthy (category filled) = true /\
   fulfilled (full_answer backend_down alice filled) = false) /\
  (calls (trace (run backend_down (handleAddToWaitingList (Some alice) filled)
                   filled)) =
     [call_add "alice@example.org" "Weaving" None "u-1"] /\
   toasts (trace (run backend_down (handleAddToWaitingList (Some alice) filled)
                    filled)) = [add_failed] /\
   completion (run backend_down (handleAddToWaitingList (Some alice) filled)
                 filled) = Returned tt /\
   final (run backend_down (handleAddToWaitingList (Some alice) filled) filled) =
     filled) /\
  (calls (trace (run backend_down (handleAddSkill (Some alice) filled) filled)) =
     [call_add "alice@example.org" "Pottery" (Some "Arts & Crafts") "u-1"] /\
   toasts (trace (run backend_down (handleAddSkill (Some alice) filled)
                    filled)) = [add_failed] /\
   completion (run backend_down (handleAddSkill (Some alice) filled) filled) =
     Returned tt /\
   final (run backend_down (handleAddSkill (Some alice) filled) filled) =
     filled).
Proof.
  split; [repeat split; reflexivity |].
  split.
  - exact (proj1 (submit_add_rejects backend_down alice filled filled)
             eq_refl eq_refl).
  - exact (proj2 (submit_add_rejects backend_down alice filled filled)
             eq_refl eq_refl eq_refl).
Defined.

Lemma quick_add_blank_is_silent_witness :
  trim (newSkill blank_name) = "" /\
  trace (run backend_up (handleAddToWaitingList (Some alice) blank_name)
           blank_name) = [] /\
  final (run backend_up (handleAddToWaitingList (Some alice) blank_name)
           blank_name) = blank_name /\
  completion (run backend_up (handleAddToWaitingList (Some alice) blank_name)
                blank_name) = Returned tt.
Proof.
  split; [reflexivity |].
  exact (quick_add_blank_is_silent backend_up blank_name blank_name
           (Some alice) eq_refl).
Defined.

(* ================================================================= *)
(** ** More on offering to teach *)

Lemma filter_other_than (waitingSkill e : WaitingListEntry.t)
  (l : list WaitingListEntry.t) :
  In e (filter (other_than waitingSkill) l) <->
  In e l /\ WaitingListEntry.id e <> WaitingListEntry.id waitingSkill.
Proof.
  rewrite filter_In. unfold other_than. rewrite negb_true_iff.
  rewrite String.eqb_neq. reflexivity.
Qed.

Lemma find_first (A : Type) (f : A -> bool) (pre post : list A) (x : A) :
  (forall y, In y pre -> f y = false) -> f x = true ->
  find f (pre ++ x :: post) = Some x.
Proof.
  intros Hpre Hx. induction pre as [| y pre IH]; cbn.
  - rewrite Hx. reflexivity.
  - rewrite (Hpre y (or_introl eq_refl)). apply IH.
    intros z Hz. apply Hpre. right. exact Hz.
Qed.

Lemma find_same (A : Type) (f g : A -> bool) (l : list A) :
  (forall x, f x = g x) -> find f l = find g l.
Proof.
  intros Hfg. induction l as [| x l IH]; cbn.
  - reflexivity.
  - rewrite Hfg, IH. reflexivity.
Qed.

Section TeachMore.
Context `{StringPrototype}.

Variables (be : Backend) (user : User.t).
Variables (rendered st : State) (waitingSkill : WaitingListEntry.t).

Let r := run be (handleTeachSkill (Some user) rendered waitingSkill) st.

(** The whole run of a teach-offer by a signed-in user. *)
Lemma teach_offer_run :
  toasts (trace r) =
    [if offer_succeeds be user rendered waitingSkill
     then offered waitingSkill else offer_failed] /\
  final r =
    with_isLoading false
      (if offer_succeeds be user rendered waitingSkill
       then apply_eff (setWaitingSkills
                         (Updater (filter (other_than waitingSkill)))) st
       else st) /\
  completion r = Returned tt.
Proof.
  subst r. unfold offer_succeeds.
  destruct (find (same_name waitingSkill) (availableSkills rendered))
    as [skillItem |] eqn:Hfind.
  - destruct (teach_offer_found be user rendered st waitingSkill Hfind) as [_ [Hfinal [Htoasts Hdone]]].
    cbv zeta in *. rewrite Hfinal, Htoasts, Hdone.
    destruct (accepted _ && fulfilled _); repeat split; reflexivity.
  - destruct (teach_offer_not_found be user rendered st waitingSkill Hfind)
      as [_ [Hfinal [Htoasts Hdone]]].
    rewrite Hfinal, Htoasts, Hdone. cbn.
    destruct (fulfilled _); repeat split; reflexivity.
Qed.

(** X5. A teach-offer by a signed-in user shows exactly one toast and
    returns.  When the offer went through, the toast is the "Success" one
    that names the desired skill, and the state differs from the one before
    only in the filtered cache; otherwise the toast is the destructive
    "Could not offer this skill" and the state is the one before.  Either
    way the loading flag ends [false] and the catalog and the form are
    untouched. *)
Theorem teach_offer_outcome :
  let went_through := offer_succeeds be user rendered waitingSkill in
  toasts (trace r) = [if went_through then offered waitingSkill else offer_failed] /\
  Toast.description (offered waitingSkill) =
    ("You've offered to teach "
       ++ WaitingListEntry.desired_skill waitingSkill)%string /\
  completion r = Returned tt /\
  final r =
    {| waitingSkills :=
         if went_through
         then filter (other_than waitingSkill) (waitingSkills st)
         else waitingSkills st;
       isLoading := false;
       availableSkills := availableSkills st;
       newSkill := newSkill st;
       skillName := skillName st;
       category := category st;
       description := description st;
       notify := notify st |}.
Proof.
  destruct teach_offer_run as [Htoasts [Hfinal Hdone]].
  cbv zeta. rewrite Htoasts, Hfinal, Hdone.
  destruct (offer_succeeds be user rendered waitingSkill);
    repeat split; reflexivity.
Qed.

(** X6. After a teach-offer that went through, the cache holds exactly the
    entries it held before whose id is not the id of the offered entry:
    every entry listed under that id is gone, also one listed twice, and no
    other entry is lost. *)
Theorem teach_offer_drops_the_id (e : WaitingListEntry.t) :
  offer_succeeds be user rendered waitingSkill = true ->
  (In e (waitingSkills (final r)) <->
   In e (waitingSkills st) /\
   WaitingListEntry.id e <> WaitingListEntry.id waitingSkill).
Proof.
  intros Hok. destruct teach_offer_run as [_ [Hfinal _]].
  rewrite Hfinal, Hok. cbn. apply filter_other_than.
Qed.

(** X11. When several catalog items carry the desired name, the first of
    them in the catalog is the one the insert is requested for. *)
Theorem teach_offer_first_match_wins (pre post : list SkillItem.t)
  (skillItem : SkillItem.t) :
  availableSkills rendered = pre ++ skillItem :: post ->
  (forall skill, In skill pre -> same_name waitingSkill skill = false) ->
  same_name waitingSkill skillItem = true ->
  hd_error (calls (trace r)) =
    Some (call_insert (User.id user) (SkillItem.id skillItem) "teach") /\
  filter is_insert (calls (trace r)) =
    [call_insert (User.id user) (SkillItem.id skillItem) "teach"].
Proof.
  intros Hcat Hpre Hitem.
  assert (Hfind : find (same_name waitingSkill) (availableSkills rendered)
                  = Some skillItem).
  { rewrite Hcat. apply find_first; assumption. }
  destruct (teach_offer_found be user rendered st waitingSkill Hfind) as [Hcalls _].
  cbv zeta in Hcalls. subst r. rewrite Hcalls.
  destruct (accepted _); split; reflexivity.
Qed.

End TeachMore.

Section SameSkill.
Context `{StringPrototype}.

(** The inserts of a teach-offer: one for the item the lookup found, none
    when it found nothing. *)
Lemma teach_offer_inserts (be : Backend) (user : User.t) (rendered st : State)
  (waitingSkill : WaitingListEntry.t) :
  filter is_insert
    (calls (trace (run be (handleTeachSkill (Some user) rendered waitingSkill) st))) =
  match find (same_name waitingSkill) (availableSkills rendered) with
  | Some skillItem =>
      [call_insert (User.id user) (SkillItem.id skillItem) "teach"]
  | None => []
  end.
Proof.
  destruct (find (same_name waitingSkill) (availableSkills rendered))
    as [skillItem |] eqn:Hfind.
  - destruct (teach_offer_found be user rendered st waitingSkill Hfind) as [Hcalls _].
    cbv zeta in Hcalls. rewrite Hcalls. destruct (accepted _); reflexivity.
  - destruct (teach_offer_not_found be user rendered st waitingSkill Hfind) as [Hcalls _].
    rewrite Hcalls. reflexivity.
Qed.

(** X12. Two entries whose desired skills are equal once lower-cased are
    offered against the same catalog item: from the same page, the
    teach-offers on them request the same insert, or both none. *)
Theorem teach_offer_same_skill_up_to_case (be be' : Backend) (user : User.t)
  (rendered st st' : State) (one other : WaitingListEntry.t) :
  toLowerCase (WaitingListEntry.desired_skill one) =
    toLowerCase (WaitingListEntry.desired_skill other) ->
  filter is_insert
    (calls (trace (run be (handleTeachSkill (Some user) rendered one) st))) =
  filter is_insert
    (calls (trace (run be' (handleTeachSkill (Some user) rendered other) st'))).
Proof.
  intros Hsame. rewrite !teach_offer_inserts.
  assert (Hfind : find (same_name one) (availableSkills rendered) =
                  find (same_name other) (availableSkills rendered)).
  { apply find_same. intros skill. unfold same_name. rewrite Hsame. reflexivity. }
  rewrite Hfind. reflexivity.
Qed.

End SameSkill.

Lemma teach_offer_drops_the_id_witness :
  offer_succeeds backend_up alice crowded wants_pottery = true /\
  (In pottery_twin
      (waitingSkills
         (final (run backend_up
                   (handleTeachSkill (Some alice) crowded wants_pottery) crowded)))
   <-> In pottery_twin (waitingSkills crowded) /\
       WaitingListEntry.id pottery_twin <> WaitingListEntry.id wants_pottery).
Proof.
  split; [reflexivity |].
  exact (teach_offer_drops_the_id backend_up alice crowded crowded
           wants_pottery pottery_twin eq_refl).
Defined.

Lemma teach_offer_first_match_wins_witness :
  (availableSkills crowded = [juggling] ++ pottery :: [pottery_again] /\
   (forall skill, In skill [juggling] -> same_name wants_POTTERY skill = false) /\
   same_name wants_POTTERY pottery = true /\
   same_name wants_POTTERY pottery_again = true) /\
  hd_error (calls (trace (run backend_up
                            (handleTeachSkill (Some alice) crowded wants_POTTERY)
                            crowded))) =
    Some (call_insert "u-1" "s-7" "teach") /\
  filter is_insert
    (calls (trace (run backend_up
                     (handleTeachSkill (Some alice) crowded wants_POTTERY)
                     crowded))) =
    [call_insert "u-1" "s-7" "teach"].
Proof.
  assert (Hpre : forall skill, In skill [juggling] ->
                               same_name wants_POTTERY skill = false).
  { intros skill [<- | []]. reflexivity. }
  split; [repeat split; try reflexivity; exact Hpre |].
  exact (teach_offer_first_match_wins backend_up alice crowded crowded
           wants_POTTERY [juggling] [pottery_again] pottery eq_refl Hpre eq_refl).
Defined.

Lemma teach_offer_same_skill_up_to_case_witness :
  toLowerCase (WaitingListEntry.desired_skill wants_pottery) =
    toLowerCase (WaitingListEntry.desired_skill wants_POTTERY) /\
  filter is_insert
    (calls (trace (run backend_up
                     (handleTeachSkill (Some alice) crowded wants_pottery)
                     crowded))) =
  filter is_insert
    (calls (trace (run backend_down
                     (handleTeachSkill (Some alice) crowded wants_POTTERY)
                     loaded))).
Proof.
  split; [reflexivity |].
  exact (teach_offer_same_skill_up_to_case backend_up backend_down alice
           crowded crowded loaded wants_pottery wants_POTTERY eq_refl).
Defined.

(* ================================================================= *)
(** ** What no handler does *)

Lemma keeps_notify_apply (R : Type) (ev : Eff R) (st : State) :
  keeps_notify ev = true -> notify (apply_eff ev st) = notify st.
Proof.
  destruct ev; cbn; intros Hk; try discriminate; reflexivity.
Qed.

Lemma keeps_catalog_apply (R : Type) (ev : Eff R) (st : State) :
  keeps_catalog ev = true ->
  availableSkills (apply_eff ev st) = availableSkills st.
Proof.
  destruct ev; cbn; intros Hk; try discriminate; reflexivity.
Qed.

Lemma run_keeps_notify (A : Type) (p : Prog A) (be : Backend) :
  forall st, performs_only keeps_notify p ->
             notify (final (run be p st)) = notify st.
Proof.
  induction p as [a | e | R ev k IH]; intros st Hp; cbn; try reflexivity.
  destruct Hp as [Hk Hrest].
  rewrite (IH _ _ (Hrest _)). apply keeps_notify_apply. exact Hk.
Qed.

Lemma run_keeps_catalog (A : Type) (p : Prog A) (be : Backend) :
  forall st, performs_only keeps_catalog p ->
             availableSkills (final (run be p st)) = availableSkills st.
Proof.
  induction p as [a | e | R ev k IH]; intros st Hp; cbn; try reflexivity.
  destruct Hp as [Hk Hrest].
  rewrite (IH _ _ (Hrest _)). apply keeps_catalog_apply. exact Hk.
Qed.

Lemma run_never_throws (p : Prog unit) (be : Backend) :
  forall st, never_throws p -> completion (run be p st) = Returned tt.
Proof.
  induction p as [[] | e | R ev k IH]; intros st Hp; cbn.
  - reflexivity.
  - destruct Hp.
  - apply IH. apply Hp.
Qed.

Section Never.
Context `{StringPrototype}.

Lemma launched_keeps_notify (st : State) (p : Prog unit) :
  launched st p -> performs_only keeps_notify p.
Proof.
  intros Hl. destruct Hl; run_handler; walk_tree.
Qed.

Lemma launched_never_throws (st : State) (p : Prog unit) :
  launched st p -> never_throws p.
Proof.
  intros Hl. destruct Hl; run_handler; walk_tree.
Qed.

Lemma fetchWaitingSkills_keeps_catalog :
  performs_only keeps_catalog fetchWaitingSkills.
Proof.
  run_handler; walk_tree.
Qed.

Lemma handlers_keep_catalog (who : option User.t) (rendered : State)
  (waitingSkill : WaitingListEntry.t) :
  performs_only keeps_catalog (handleTeachSkill who rendered waitingSkill) /\
  performs_only keeps_catalog (handleAddToWaitingList who rendered) /\
  performs_only keeps_catalog (handleAddSkill who rendered).
Proof.
  repeat split; run_handler; walk_tree.
Qed.

Lemma step_never_throws (c c' : Config) :
  Forall never_throws (inflight c) -> step c c' ->
  Forall never_throws (inflight c').
Proof.
  intros Hall Hstep. destruct Hstep; cbn in *.
  - apply Forall_app. split; [exact Hall |].
    constructor; [| constructor]. eapply launched_never_throws; eassumption.
  - exact Hall.
  - apply Forall_app in Hall. destruct Hall as [Hpre Hcur].
    inversion Hcur as [| p pl Hp Hpost]; subst.
    apply Forall_app. split; [exact Hpre |].
    constructor; [apply Hp | exact Hpost].
  - apply Forall_app in Hall. destruct Hall as [Hpre Hcur].
    inversion Hcur; subst. apply Forall_app. split; assumption.
  - apply Forall_app in Hall. destruct Hall as [Hpre Hcur].
    inversion Hcur; subst. apply Forall_app. split; assumption.
Qed.

(** X7. No handler ever writes the [notify] checkbox: after any run of any
    handler of the page it has the value it had before.  And the catalog is
    written by [fetchAvailableSkills] alone: the list load, the
    teach-offer and both submit handlers leave [availableSkills] as it
    was. *)
Theorem handlers_keep_notify_and_catalog :
  (forall rendered p, launched rendered p ->
     forall be st, notify (final (run be p st)) = notify st) /\
  (forall be who rendered st waitingSkill,
     availableSkills (final (run be fetchWaitingSkills st)) =
       availableSkills st /\
     availableSkills
       (final (run be (handleTeachSkill who rendered waitingSkill) st)) =
       availableSkills st /\
     availableSkills (final (run be (handleAddToWaitingList who rendered) st)) =
       availableSkills st /\
     availableSkills (final (run be (handleAddSkill who rendered) st)) =
       availableSkills st).
Proof.
  split.
  - intros rendered p Hl be st. apply run_keeps_notify.
    eapply launched_keeps_notify. exact Hl.
  - intros be who rendered st waitingSkill.
    destruct (handlers_keep_catalog who rendered waitingSkill)
      as [Hteach [Hquick Hfull]].
    repeat split; apply run_keeps_catalog;
      [apply fetchWaitingSkills_keeps_catalog | assumption ..].
Qed.

(** X8. Every handler catches what it throws: any run of any handler of
    the page returns, whatever the backend answered, so no promise of a
    handler rejects.  And however handlers interleave from the first
    render on, none in flight is ever left at an exception. *)
Theorem handlers_always_return :
  (forall rendered p, launched rendered p ->
     forall be st, completion (run be p st) = Returned tt) /\
  (forall c, reachable c -> forall e, ~ In (Throw e) (inflight c)).
Proof.
  split.
  - intros rendered p Hl be st. apply run_never_throws.
    eapply launched_never_throws. exact Hl.
  - intros c Hc.
    assert (Hall : Forall never_throws (inflight c)).
    { induction Hc as [| c c' _ IH Hstep].
      - cbn. constructor.
      - eapply step_never_throws; eassumption. }
    intros e Hin. rewrite Forall_forall in Hall. exact (Hall _ Hin).
Qed.


End Never.

Lemma handlers_keep_notify_and_catalog_witness :
  notify (final (run backend_up (handleAddSkill (Some alice) filled) filled)) =
    notify filled.
Proof.
  exact (proj1 handlers_keep_notify_and_catalog filled _
           (launch_handleAddSkill filled (Some alice)) backend_up filled).
Defined.

Lemma handlers_always_return_witness :
  completion (run backend_down
                (handleTeachSkill (Some alice) loaded wants_pottery) loaded) =
    Returned tt /\
  ~ In (Throw network_down) (inflight after_offer).
Proof.
  split.
  - exact (proj1 handlers_always_return loaded _
             (launch_handleTeachSkill loaded (Some alice) wants_pottery)
             backend_down loaded).
  - exact (proj2 handlers_always_return after_offer after_offer_reachable
             network_down).
Defined.

(* ================================================================= *)
(** ** The two loads of the mount effect *)

Lemma apply_eff_commute (R R' : Type) (ev : Eff R) (ev' : Eff R')
  (st : State) :
  keeps_catalog ev = true -> catalog_only ev' = true ->
  apply_eff ev (apply_eff ev' st) = apply_eff ev' (apply_eff ev st).
Proof.
  destruct ev; cbn; intros Hk; try discriminate;
    destruct ev'; cbn; intros Hc; try discriminate; reflexivity.
Qed.

(** A program that leaves the catalog alone ends in the same state whether
    an effect on the catalog alone comes before it or after it. *)
Lemma run_past_catalog_effect (A : Type) (p : Prog A) (be : Backend)
  (R' : Type) (ev' : Eff R') :
  catalog_only ev' = true ->
  forall st, performs_only keeps_catalog p ->
             final (run be p (apply_eff ev' st)) =
             apply_eff ev' (final (run be p st)).
Proof.
  intros Hc. induction p as [a | e | R ev k IH]; intros st Hp; cbn;
    try reflexivity.
  destruct Hp as [Hk Hrest].
  rewrite (apply_eff_commute ev ev' st Hk Hc). apply IH. apply Hrest.
Qed.

Lemma sequential_orders_agree (a b : Prog unit) (be : Backend) :
  performs_only keeps_catalog a ->
  forall st, performs_only catalog_only b ->
             final (run be b (final (run be a st))) =
             final (run be a (final (run be b st))).
Proof.
  intros Ha. induction b as [x | e | R ev k IH]; intros st Hb; cbn;
    try reflexivity.
  destruct Hb as [Hc Hrest].
  rewrite <- (run_past_catalog_effect a be ev Hc st Ha).
  apply IH. apply Hrest.
Qed.

Lemma interleave_is_sequential (be : Backend) (sched : list bool) :
  forall (a b : Prog unit) (st : State),
    performs_only keeps_catalog a -> performs_only catalog_only b ->
    interleave be sched a b st = final (run be b (final (run be a st))).
Proof.
  induction sched as [| pick sched IH]; intros a b st Ha Hb.
  - reflexivity.
  - destruct pick; cbn [interleave].
    + destruct a as [x | e | R ev k].
      * apply IH; assumption.
      * apply IH; assumption.
      * destruct Ha as [_ Hrest]. rewrite IH; [reflexivity | apply Hrest | exact Hb].
    + destruct b as [x | e | R ev k].
      * apply IH; assumption.
      * apply IH; assumption.
      * destruct Hb as [Hc Hrest].
        rewrite IH; [| exact Ha | apply Hrest].
        cbn [run final].
        rewrite (run_past_catalog_effect a be ev Hc st Ha). reflexivity.
Qed.

Section Mount.
Context `{StringPrototype}.

Lemma fetchAvailableSkills_catalog_only :
  performs_only catalog_only fetchAvailableSkills.
Proof.
  run_handler; walk_tree.
Qed.

(** X10. The two loads started by the mount effect do not depend on the
    order in which their effects interleave: for every schedule the page
    ends in the state it reaches when the list load runs to its end before
    the catalog load starts, which is also the state of the opposite
    order.  From the first render that state holds the fetched entries (none
    when the fetch rejected), the rows of the catalog (none when the query
    failed), the loading flag [false] and the untouched form. *)
Theorem mount_loads_commute (be : Backend) (sched : list bool) (st : State) :
  interleave be sched fetchWaitingSkills fetchAvailableSkills st =
    final (run be fetchAvailableSkills (final (run be fetchWaitingSkills st))) /\
  interleave be sched fetchWaitingSkills fetchAvailableSkills st =
    final (run be fetchWaitingSkills (final (run be fetchAvailableSkills st))) /\
  interleave be sched fetchWaitingSkills fetchAvailableSkills initialState =
    {| waitingSkills := refetched be [];
       isLoading := false;
       availableSkills :=
         match catalog_of (selected be) with
         | Some rows => rows
         | None => []
         end;
       newSkill := "";
       skillName := "";
       category := "";
       description := "";
       notify := true |}.
Proof.
  assert (Hseq : forall st',
             interleave be sched fetchWaitingSkills fetchAvailableSkills st' =
             final (run be fetchAvailableSkills
                      (final (run be fetchWaitingSkills st')))).
  { intros st'. apply interleave_is_sequential.
    - apply fetchWaitingSkills_keeps_catalog.
    - apply fetchAvailableSkills_catalog_only. }
  split; [apply Hseq |]. split.
  - rewrite Hseq. apply sequential_orders_agree.
    + apply fetchWaitingSkills_keeps_catalog.
    + apply fetchAvailableSkills_catalog_only.
  - rewrite Hseq. unfold refetched. run_handler.
    destruct (fetched be); cbn;
      destruct (selected be) as [[d [e' |]] | e']; reflexivity.
Qed.

(** X16. Loading again from a backend that answers the same changes
    nothing: a second run of either load ends in the state the first one
    ended in. *)
Theorem loading_twice_is_loading_once (be : Backend) (st : State) :
  final (run be fetchWaitingSkills (final (run be fetchWaitingSkills st))) =
    final (run be fetchWaitingSkills st) /\
  final (run be fetchAvailableSkills (final (run be fetchAvailableSkills st))) =
    final (run be fetchAvailableSkills st).
Proof.
  split; run_handler.
  - destruct (fetched be); reflexivity.
  - destruct (selected be) as [[d [e |]] | e]; reflexivity.
Qed.

End Mount.

(* ================================================================= *)
(** ** What a submission sends *)

Lemma truthy_nonempty (s : string) : truthy s = true -> s <> "".
Proof.
  unfold truthy. rewrite negb_true_iff. apply String.eqb_neq.
Qed.

Section Sent.
Context `{StringPrototype}.

Variables (be : Backend) (rendered st : State).

(** X13. Whoever is signed in and whatever the backend answers, an add call
    of the quick-add carries the trimmed [newSkill], never the empty
    string, and no category; an add call of the full form carries the
    trimmed [skillName], never the empty string, and the selected
    category, never the empty one.  Besides the add call, a submit handler
    calls nothing but the re-fetch. *)
Theorem submissions_send_checked_fields (who : option User.t) :
  Forall (quick_shape rendered)
    (calls (trace (run be (handleAddToWaitingList who rendered) st))) /\
  Forall (full_shape rendered)
    (calls (trace (run be (handleAddSkill who rendered) st))).
Proof.
  split.
  - destruct who as [user |]; [| constructor].
    destruct (truthy (trim (newSkill rendered))) eqn:Hname;
      run_handler; rewrite Hname; cbn; [| constructor].
    pose proof (truthy_nonempty Hname) as Hne.
    walk_run; repeat constructor; assumption.
  - destruct who as [user |]; [| cbn; constructor].
    destruct (truthy (trim (skillName rendered))) eqn:Hname;
      run_handler; rewrite Hname; cbn; [| constructor].
    destruct (truthy (category rendered)) eqn:Hcat; cbn; [| constructor].
    pose proof (truthy_nonempty Hname) as Hne.
    pose proof (truthy_nonempty Hcat) as Hce.
    walk_run; repeat constructor; assumption.
Qed.

(** X14. The full form sends nothing of the description, of the checkbox
    or of the quick-add field: from two pages that agree on [skillName] and
    [category], the submit handler runs the same way -- same calls with the
    same arguments, same toasts, same final state. *)
Theorem full_form_reads_two_fields (who : option User.t) (other : State) :
  skillName rendered = skillName other ->
  category rendered = category other ->
  run be (handleAddSkill who rendered) st =
  run be (handleAddSkill who other) st.
Proof.
  intros Hname Hcat. unfold handleAddSkill. rewrite Hname, Hcat. reflexivity.
Qed.

(** X15. A signed-in user whose account has no email, or an empty one,
    still submits: the add call is issued with the empty string as
    email. *)
Theorem submissions_default_the_email (user : User.t) :
  User.email user = None \/ User.email user = Some "" ->
  (truthy (trim (newSkill rendered)) = true ->
   hd_error (calls (trace (run be (handleAddToWaitingList (Some user) rendered) st))) =
     Some (call_add "" (trim (newSkill rendered)) None (User.id user)))
  /\
  (truthy (trim (skillName rendered)) = true ->
   truthy (category rendered) = true ->
   hd_error (calls (trace (run be (handleAddSkill (Some user) rendered) st))) =
     Some (call_add "" (trim (skillName rendered)) (Some (category rendered))
             (User.id user))).
Proof.
  intros Hmail.
  assert (Hdefault : or_else (User.email user) "" = "").
  { destruct Hmail as [-> | ->]; reflexivity. }
  split.
  - intros Hname. run_handler. rewrite Hname, Hdefault. reflexivity.
  - intros Hname Hcat. run_handler. rewrite Hname, Hcat, Hdefault. reflexivity.
Qed.

(** X17. After a full-form submission that went through, the form is empty
    again, so submitting it once more without touching it is turned down:
    from the page as the first submission left it, the handler calls
    nothing, shows the "Please fill in all required fields" toast and
    leaves the state as it is. *)
Theorem resubmitting_the_emptied_form (be' : Backend) (user user' : User.t) :
  truthy (trim (skillName rendered)) = true ->
  truthy (category rendered) = true ->
  full_answer be user rendered = Fulfilled {| success := true |} ->
  let left := final (run be (handleAddSkill (Some user) rendered) st) in
  let again := run be' (handleAddSkill (Some user') left) left in
  calls (trace again) = [] /\
  toasts (trace again) = [fields_required] /\
  final again = left.
Proof.
  unfold full_answer. intros Hname Hcat Hadd.
  assert (Hleft : category
                    (final (run be (handleAddSkill (Some user) rendered) st)) = "").
  { run_handler. rewrite Hname, Hcat. cbn. rewrite Hadd. cbn.
    destruct (fetched be); reflexivity. }
  cbv zeta.
  generalize dependent (final (run be (handleAddSkill (Some user) rendered) st)).
  intros left Hleft. run_handler. rewrite Hleft. cbn.
  rewrite orb_true_r. cbn. repeat split; reflexivity.
Qed.

End Sent.

Lemma full_form_reads_two_fields_witness :
  (skillName filled = skillName filled_otherwise /\
   category filled = category filled_otherwise /\
   description filled <> description filled_otherwise /\
   notify filled <> notify filled_otherwise) /\
  run backend_up (handleAddSkill (Some alice) filled) loaded =
  run backend_up (handleAddSkill (Some alice) filled_otherwise) loaded.
Proof.
  split; [repeat split; try reflexivity; discriminate |].
  exact (full_form_reads_two_fields backend_up filled loaded (Some alice)
           filled_otherwise eq_refl eq_refl).
Defined.

Lemma submissions_default_the_email_witness :
  (User.email bob = None \/ User.email bob = Some "") /\
  hd_error (calls (trace (run backend_up
                            (handleAddToWaitingList (Some bob) filled) filled))) =
    Some (call_add "" "Weaving" None "u-2") /\
  hd_error (calls (trace (run backend_up (handleAddSkill (Some bob) filled)
                            filled))) =
    Some (call_add "" "Pottery" (Some "Arts & Crafts") "u-2").
Proof.
  split; [left; reflexivity |].
  split.
  - exact (proj1 (submissions_default_the_email backend_up filled filled bob
                    (or_introl eq_refl)) eq_refl).
  - exact (proj2 (submissions_default_the_email backend_up filled filled bob
                    (or_introl eq_refl)) eq_refl eq_refl).
Defined.

Lemma resubmitting_the_emptied_form_witness :
  (truthy (trim (skillName filled)) = true /\
   truthy (category filled) = true /\
   full_answer backend_up alice filled = Fulfilled {| success := true |}) /\
  calls (trace (run backend_up
                  (handleAddSkill (Some alice)
                     (final (run backend_up (handleAddSkill (Some alice) filled)
                               filled)))
                  (final (run backend_up (handleAddSkill (Some alice) filled)
                            filled)))) = [] /\
  toasts (trace (run backend_up
                   (handleAddSkill (Some alice)
                      (final (run backend_up (handleAddSkill (Some alice) filled)
                                filled)))
                   (final (run backend_up (handleAddSkill (Some alice) filled)
                             filled)))) = [fields_required] /\
  final (run backend_up
           (handleAddSkill (Some alice)
              (final (run backend_up (handleAddSkill (Some alice) filled)
                        filled)))
           (final (run backend_up (handleAddSkill (Some alice) filled) filled))) =
    final (run backend_up (handleAddSkill (Some alice) filled) filled).
Proof.
  split; [repeat split; reflexivity |].
  exact (resubmitting_the_emptied_form backend_up filled filled backend_up
           alice alice eq_refl eq_refl eq_refl).
Defined.
